(** * Video generation studio: form reconciliation, cost, prompt heuristic,
      request orchestration and route protection

    A shallow embedding of the TypeScript sources
      - [src/lib/auth-client.ts]  (the [VideoGenerator] component), and
      - [src/proxy.ts]            (the route middleware),
    followed by the properties the specification states about them.

    Conventions of the embedding.
      - A JavaScript string is the list of its UTF-16 code units.
      - The numbers held by the form (video count, duration in seconds,
        epoch milliseconds) are integers, modelled as [Z]; prices and
        costs are rationals, modelled as [Q].  Non-finite values (NaN,
        infinities) are outside the model.
      - React state is a record; every [setX] of the component is a
        function on that record taking an updater, as [setX(prev => ...)].
      - [Date.now()] and the outcome of [fetch] are inputs of the
        handler. *)

From Stdlib Require Import List ZArith NArith QArith Qround Bool String Ascii.
From Stdlib Require Import DecimalString Lia.
Import ListNotations.

Local Open Scope Z_scope.

(* ================================================================== *)
(** ** JavaScript strings *)
(* ================================================================== *)

Module JS.

(** A string value: its sequence of UTF-16 code units. *)
Definition jsstring := list N.

(** An ASCII literal of the source as a [jsstring]. *)
Definition js (s : string) : jsstring :=
  map N_of_ascii (list_ascii_of_string s).

(** [a === b] on strings. *)
Fixpoint str_eqb (a b : jsstring) : bool :=
  match a, b with
  | [], [] => true
  | x :: a', y :: b' => N.eqb x y && str_eqb a' b'
  | _, _ => false
  end.

(** [s.startsWith(prefix)]. *)
Fixpoint startsWith (s prefix : jsstring) {struct prefix} : bool :=
  match prefix, s with
  | [], _ => true
  | p :: prefix', c :: s' => N.eqb c p && startsWith s' prefix'
  | _ :: _, [] => false
  end.

(** Truthiness of a string: non-empty. *)
Definition truthy (s : jsstring) : bool :=
  match s with [] => false | _ :: _ => true end.

(** ECMAScript [WhiteSpace] and [LineTerminator] code units: what
    [String.prototype.trim] strips and what [\s] matches. *)
Definition is_white_space (c : N) : bool :=
  ((9 <=? c) && (c <=? 13)              (* TAB LF VT FF CR *)
   || (c =? 32)                         (* SPACE *)
   || (c =? 160)                        (* NO-BREAK SPACE *)
   || (c =? 5760)                       (* OGHAM SPACE MARK *)
   || ((8192 <=? c) && (c <=? 8202))    (* EN QUAD .. HAIR SPACE *)
   || (c =? 8232) || (c =? 8233)        (* LINE / PARAGRAPH SEPARATOR *)
   || (c =? 8239) || (c =? 8287)        (* NARROW NBSP, MEDIUM MATH SPACE *)
   || (c =? 12288)                      (* IDEOGRAPHIC SPACE *)
   || (c =? 65279))%N.                  (* ZERO WIDTH NO-BREAK SPACE *)

Fixpoint trimStart (s : jsstring) : jsstring :=
  match s with
  | [] => []
  | c :: r => if is_white_space c then trimStart r else s
  end.

Definition trimEnd (s : jsstring) : jsstring :=
  rev (trimStart (rev s)).

(** [s.trim()]. *)
Definition trim (s : jsstring) : jsstring := trimEnd (trimStart s).

(** [s.split(/\s+/)]: [cur] is the piece being read (reversed) and
    [in_sep] tells that the previous code unit belonged to a separator
    already emitted. *)
Fixpoint split_ws_from (cur : jsstring) (in_sep : bool) (s : jsstring)
  : list jsstring :=
  match s with
  | [] => [rev cur]
  | c :: r =>
      if is_white_space c
      then if in_sep then split_ws_from cur true r
           else rev cur :: split_ws_from [] true r
      else split_ws_from (c :: cur) false r
  end.

Definition split_ws (s : jsstring) : list jsstring :=
  split_ws_from [] false s.

(** [arr.includes(x)] for an array of strings. *)
Definition includes_str (l : list jsstring) (x : jsstring) : bool :=
  existsb (str_eqb x) l.

(** [arr.includes(x)] for an array of numbers. *)
Definition includes_num (l : list Z) (x : Z) : bool :=
  existsb (Z.eqb x) l.

(** [a || b] where [a] is an optional number: [undefined] and [0] are
    falsy. *)
Definition num_or (a : option Z) (b : Z) : Z :=
  match a with
  | Some v => if v =? 0 then b else v
  | None => b
  end.

(** Truthiness of a (finite) number. *)
Definition truthyQ (q : Q) : bool := negb (Qnum q =? 0).

End JS.
Import JS.

(** What the component takes from the JavaScript runtime: the decimal
    rendering of a number ([Number.prototype.toString]), the
    [Intl.NumberFormat] USD formatter behind [formatCurrency], and the
    message of the [TypeError] that reading a property of [null] throws,
    which differs from engine to engine. *)
Class Runtime := {
  numberToString : Z -> jsstring;
  formatCurrency : Q -> jsstring;
  nullPropertyError : jsstring
}.

(* ================================================================== *)
(** ** Provider catalog *)
(* ================================================================== *)

(** Modelled from the spec: the [VideoProvider] type of
    [@/lib/video-providers], which is not among the sources.  The fields
    are those of the spec's ProviderDescriptor, under the names the
    component reads them by; [maxVideos] is optional, as its uses
    [maxVideos || 1] and [maxVideos ?? 1] show. *)
Record Capabilities := {
  supportsMultipleVideos : bool;
  maxVideos : option Z;
  supportsConditioningImage : bool;
  supportsNegativePrompt : bool;
  supportedDurations : list Z;
  supportsResolution : bool;
  supportedResolutions : list jsstring;
  supportsFPS : bool;
  supportedFPS : list Z
}.

Record Pricing := {
  costPerSecond : Q;
  freeTier : option jsstring
}.

Record VideoProvider := {
  id : jsstring;
  name : jsstring;
  description : jsstring;
  features : list jsstring;
  pricing : Pricing;
  maxDuration : Z;
  supportedAspectRatios : list jsstring;
  capabilities : Capabilities
}.

(** Modelled from the spec: [calculateCost] of [@/lib/video-providers],
    which is not among the sources.  The spec gives
    [estimate(provider, durationSeconds) =
     provider.costPerSecond * durationSeconds]. *)
Definition calculateCost (p : VideoProvider) (durationSeconds : Z) : Q :=
  (costPerSecond (pricing p) * inject_Z durationSeconds)%Q.

(* ================================================================== *)
(** ** Component state *)
(* ================================================================== *)

(** A browser [File]: its name and its bytes. *)
Record File := {
  file_name : jsstring;
  file_bytes : list N
}.

Record GenerationMeta := {
  meta_provider : jsstring;
  meta_cost : option Q;
  meta_startedAt : option Z;
  meta_completedAt : option Z;
  meta_error : option jsstring
}.

(** The [useState] cells of [VideoGenerator]. *)
Record State := {
  provider : jsstring;
  prompt : jsstring;
  negativePrompt : jsstring;
  numberOfVideos : Z;
  aspectRatio : jsstring;
  durationSeconds : Z;
  conditioningImage : option File;
  veo3Model : jsstring;
  veo3Resolution : jsstring;
  veo3Audio : bool;
  isGenerating : bool;
  message : jsstring;
  videos : list jsstring;
  generationMeta : option GenerationMeta;
  copiedVideoUrl : option jsstring
}.

Definition setNumberOfVideos (f : Z -> Z) (s : State) : State :=
  {| provider := provider s; prompt := prompt s;
     negativePrompt := negativePrompt s;
     numberOfVideos := f (numberOfVideos s);
     aspectRatio := aspectRatio s; durationSeconds := durationSeconds s;
     conditioningImage := conditioningImage s; veo3Model := veo3Model s;
     veo3Resolution := veo3Resolution s; veo3Audio := veo3Audio s;
     isGenerating := isGenerating s; message := message s;
     videos := videos s; generationMeta := generationMeta s;
     copiedVideoUrl := copiedVideoUrl s |}.

Definition setConditioningImage (f : option File -> option File) (s : State)
  : State :=
  {| provider := provider s; prompt := prompt s;
     negativePrompt := negativePrompt s; numberOfVideos := numberOfVideos s;
     aspectRatio := aspectRatio s; durationSeconds := durationSeconds s;
     conditioningImage := f (conditioningImage s); veo3Model := veo3Model s;
     veo3Resolution := veo3Resolution s; veo3Audio := veo3Audio s;
     isGenerating := isGenerating s; message := message s;
     videos := videos s; generationMeta := generationMeta s;
     copiedVideoUrl := copiedVideoUrl s |}.

Definition setNegativePrompt (f : jsstring -> jsstring) (s : State) : State :=
  {| provider := provider s; prompt := prompt s;
     negativePrompt := f (negativePrompt s);
     numberOfVideos := numberOfVideos s;
     aspectRatio := aspectRatio s; durationSeconds := durationSeconds s;
     conditioningImage := conditioningImage s; veo3Model := veo3Model s;
     veo3Resolution := veo3Resolution s; veo3Audio := veo3Audio s;
     isGenerating := isGenerating s; message := message s;
     videos := videos s; generationMeta := generationMeta s;
     copiedVideoUrl := copiedVideoUrl s |}.

Definition setAspectRatio (f : jsstring -> jsstring) (s : State) : State :=
  {| provider := provider s; prompt := prompt s;
     negativePrompt := negativePrompt s; numberOfVideos := numberOfVideos s;
     aspectRatio := f (aspectRatio s); durationSeconds := durationSeconds s;
     conditioningImage := conditioningImage s; veo3Model := veo3Model s;
     veo3Resolution := veo3Resolution s; veo3Audio := veo3Audio s;
     isGenerating := isGenerating s; message := message s;
     videos := videos s; generationMeta := generationMeta s;
     copiedVideoUrl := copiedVideoUrl s |}.

Definition setDurationSeconds (f : Z -> Z) (s : State) : State :=
  {| provider := provider s; prompt := prompt s;
     negativePrompt := negativePrompt s; numberOfVideos := numberOfVideos s;
     aspectRatio := aspectRatio s; durationSeconds := f (durationSeconds s);
     conditioningImage := conditioningImage s; veo3Model := veo3Model s;
     veo3Resolution := veo3Resolution s; veo3Audio := veo3Audio s;
     isGenerating := isGenerating s; message := message s;
     videos := videos s; generationMeta := generationMeta s;
     copiedVideoUrl := copiedVideoUrl s |}.

Definition setIsGenerating (v : bool) (s : State) : State :=
  {| provider := provider s; prompt := prompt s;
     negativePrompt := negativePrompt s; numberOfVideos := numberOfVideos s;
     aspectRatio := aspectRatio s; durationSeconds := durationSeconds s;
     conditioningImage := conditioningImage s; veo3Model := veo3Model s;
     veo3Resolution := veo3Resolution s; veo3Audio := veo3Audio s;
     isGenerating := v; message := message s;
     videos := videos s; generationMeta := generationMeta s;
     copiedVideoUrl := copiedVideoUrl s |}.

Definition setMessage (v : jsstring) (s : State) : State :=
  {| provider := provider s; prompt := prompt s;
     negativePrompt := negativePrompt s; numberOfVideos := numberOfVideos s;
     aspectRatio := aspectRatio s; durationSeconds := durationSeconds s;
     conditioningImage := conditioningImage s; veo3Model := veo3Model s;
     veo3Resolution := veo3Resolution s; veo3Audio := veo3Audio s;
     isGenerating := isGenerating s; message := v;
     videos := videos s; generationMeta := generationMeta s;
     copiedVideoUrl := copiedVideoUrl s |}.

Definition setVideos (v : list jsstring) (s : State) : State :=
  {| provider := provider s; prompt := prompt s;
     negativePrompt := negativePrompt s; numberOfVideos := numberOfVideos s;
     aspectRatio := aspectRatio s; durationSeconds := durationSeconds s;
     conditioningImage := conditioningImage s; veo3Model := veo3Model s;
     veo3Resolution := veo3Resolution s; veo3Audio := veo3Audio s;
     isGenerating := isGenerating s; message := message s;
     videos := v; generationMeta := generationMeta s;
     copiedVideoUrl := copiedVideoUrl s |}.

Definition setGenerationMeta (v : option GenerationMeta) (s : State) : State :=
  {| provider := provider s; prompt := prompt s;
     negativePrompt := negativePrompt s; numberOfVideos := numberOfVideos s;
     aspectRatio := aspectRatio s; durationSeconds := durationSeconds s;
     conditioningImage := conditioningImage s; veo3Model := veo3Model s;
     veo3Resolution := veo3Resolution s; veo3Audio := veo3Audio s;
     isGenerating := isGenerating s; message := message s;
     videos := videos s; generationMeta := v;
     copiedVideoUrl := copiedVideoUrl s |}.

(** The initial cells, for the catalog [providers]. *)
Definition initialState (providers : list VideoProvider) : State :=
  {| provider := match providers with p :: _ => id p | [] => js "veo-3" end;
     prompt := []; negativePrompt := []; numberOfVideos := 1;
     aspectRatio := js "16:9"; durationSeconds := 5;
     conditioningImage := None; veo3Model := js "veo3-fast";
     veo3Resolution := js "720p"; veo3Audio := true;
     isGenerating := false; message := []; videos := [];
     generationMeta := None; copiedVideoUrl := None |}.

(** [providers.find((p) => p.id === provider)]. *)
Definition selectedProvider (providers : list VideoProvider) (s : State)
  : option VideoProvider :=
  find (fun p => str_eqb (id p) (provider s)) providers.

(* ================================================================== *)
(** ** Form state reconciliation (the [useEffect] on [selectedProvider]) *)
(* ================================================================== *)

Module Reconciler.

Definition reconcileNumberOfVideos (P : VideoProvider) (prev : Z) : Z :=
  if negb (supportsMultipleVideos (capabilities P)) then 1
  else
    let maxVideos := num_or (maxVideos (capabilities P)) 1 in
    Z.min (Z.max 1 prev) maxVideos.

Definition reconcileConditioningImage (P : VideoProvider)
    (prev : option File) : option File :=
  if supportsConditioningImage (capabilities P) then prev else None.

Definition reconcileNegativePrompt (P : VideoProvider) (prev : jsstring)
  : jsstring :=
  if supportsNegativePrompt (capabilities P) then prev else [].

Definition reconcileAspectRatio (P : VideoProvider) (prev : jsstring)
  : jsstring :=
  if includes_str (supportedAspectRatios P) prev then prev
  else match supportedAspectRatios P with
       | first :: _ => first
       | [] => js "16:9"
       end.

Definition reconcileDurationSeconds (P : VideoProvider) (prev : Z) : Z :=
  let allowedDurations := supportedDurations (capabilities P) in
  match allowedDurations with
  | first :: _ =>
      if negb (includes_num allowedDurations prev) then first
      else Z.min prev (maxDuration P)
  | [] => Z.min prev (maxDuration P)
  end.

(** The body of the effect once a provider is selected. *)
Definition reconcile (P : VideoProvider) (s : State) : State :=
  let s := setNumberOfVideos (reconcileNumberOfVideos P) s in
  let s := setConditioningImage (reconcileConditioningImage P) s in
  let s := setNegativePrompt (reconcileNegativePrompt P) s in
  let s := setAspectRatio (reconcileAspectRatio P) s in
  let s := setDurationSeconds (reconcileDurationSeconds P) s in
  s.

(** The effect: nothing happens without a selected provider. *)
Definition reconciliationEffect (providers : list VideoProvider)
    (s : State) : State :=
  match selectedProvider providers s with
  | None => s
  | Some P => reconcile P s
  end.

End Reconciler.

(* ================================================================== *)
(** ** Cost estimate *)
(* ================================================================== *)

Module Cost.

(** [estimatedCostPerVideo]: zero without a selected provider. *)
Definition estimatedCostPerVideo (selected : option VideoProvider)
    (durationSeconds : Z) : Q :=
  match selected with
  | None => 0%Q
  | Some P => calculateCost P durationSeconds
  end.

(** [estimatedTotalCost].  The product of two numbers is written as the
    product of rationals; what is stated about it below is which product
    is taken, not a law of the arithmetic. *)
Definition estimatedTotalCost (selected : option VideoProvider)
    (durationSeconds numberOfVideos : Z) : Q :=
  (estimatedCostPerVideo selected durationSeconds
   * inject_Z (Z.max 1 numberOfVideos))%Q.

End Cost.

(* ================================================================== *)
(** ** Prompt quality heuristic ([promptInsights]) *)
(* ================================================================== *)

Module Prompt.

Record Insights := {
  words : nat;
  quality : jsstring;
  helper : jsstring;
  badgeClass : jsstring;
  score : nat
}.

(** [trimmed ? trimmed.split(/\s+/).filter(Boolean).length : 0]. *)
Definition countWords (prompt : jsstring) : nat :=
  let trimmed := trim prompt in
  if truthy trimmed
  then List.length (filter truthy (split_ws trimmed))
  else 0%nat.

(** The four tiers, by the number of words. *)
Definition insightsOfWords (words : nat) : Insights :=
  if (words =? 0)%nat then
    {| words := words;
       quality := js "Add a descriptive prompt";
       helper := js "Describe the subject, setting, and motion you expect.";
       badgeClass := js "bg-red-900/30 text-red-300 border border-red-600/30";
       score := 0 |}
  else if (words <? 12)%nat then
    {| words := words;
       quality := js "Needs more detail";
       helper :=
         js "Aim for at least 12 words so providers have enough context.";
       badgeClass :=
         js "bg-yellow-900/30 text-yellow-300 border border-yellow-600/30";
       score := 1 |}
  else if (words <? 30)%nat then
    {| words := words;
       quality := js "Great start";
       helper := js "Add camera cues or mood to push it even further.";
       badgeClass :=
         js "bg-blue-900/30 text-blue-200 border border-blue-600/30";
       score := 2 |}
  else
    {| words := words;
       quality := js "Production ready";
       helper := js "Plenty of detail. You can generate with confidence.";
       badgeClass :=
         js "bg-green-900/30 text-green-200 border border-green-600/30";
       score := 3 |}.

Definition promptInsights (prompt : jsstring) : Insights :=
  insightsOfWords (countWords prompt).

(** The spec's reading of the count, to compare [countWords] with: the
    number of words of the text, a word being a maximal run of code
    units that are not whitespace.  [after_ws] tells that the previous
    code unit, if any, was whitespace. *)
Fixpoint spec_words_from (after_ws : bool) (s : jsstring) : nat :=
  match s with
  | [] => 0
  | c :: r =>
      if is_white_space c then spec_words_from true r
      else ((if after_ws then 1 else 0) + spec_words_from false r)%nat
  end.

Definition spec_words (s : jsstring) : nat := spec_words_from true s.

End Prompt.

(* ================================================================== *)
(** ** Generation request orchestration ([handleGenerate]) *)
(* ================================================================== *)

Module Orchestrator.

Inductive FormValue :=
| FVString (s : jsstring)
| FVFile (f : File).

(** A [FormData]: its entries, in the order they were appended. *)
Definition FormData := list (jsstring * FormValue).

Definition append (key : jsstring) (v : FormValue) (fd : FormData)
  : FormData := fd ++ [(key, v)].

Definition boolToString (b : bool) : jsstring :=
  if b then js "true" else js "false".

Record Request := {
  req_url : jsstring;
  req_method : jsstring;
  req_body : FormData
}.

(** A thrown value: an [Error] with its message, or anything else. *)
Inductive Thrown :=
| ThrownError (msg : jsstring)
| ThrownOther.

(** What the handler reads from the parsed body of a successful
    response; each property may be missing. *)
Record GenerationResult := {
  res_videos : option (list jsstring);
  res_provider : option jsstring;
  res_cost : option Q
}.

(** What [await fetch(...)] and then [await response.json()] give: the
    fetch rejects, or a response arrives with a status code and a body
    that makes [json()] throw, or parses to [null] ([None]), or parses to
    a value with readable properties. *)
Inductive FetchOutcome :=
| FetchRejected (e : Thrown)
| FetchResponse (status : Z) (body : Thrown + option GenerationResult).

(** [response.ok]: the status is in the range 200-299. *)
Definition response_ok (status : Z) : bool :=
  (200 <=? status) && (status <=? 299).

(** What the handler keeps in its closure across the [await]. *)
Record Captured := {
  cap_provider : jsstring;
  cap_startedAt : Z
}.

(** The metadata the [catch] block records when the [try] block threw
    its own [Error('Failed to generate video')]. *)
Definition failedMeta (p : jsstring) (startedAt completedAt : Z)
  : GenerationMeta :=
  {| meta_provider := p; meta_cost := None;
     meta_startedAt := Some startedAt;
     meta_completedAt := Some completedAt;
     meta_error := Some (js "Failed to generate video") |}.

(** What a guard [{cost && (<p>...</p>)}] puts in the tree: nothing for
    [undefined], the number itself for a falsy number, the paragraph
    otherwise. *)
Inductive CostNode :=
| CostNothing
| CostNumber (q : Q)
| CostLine (text : jsstring).

(** What [{completedAt && (<div>...</div>)}] puts in the tree. *)
Inductive CardNode :=
| NoCard
| CardNumber (t : Z)
| Card (failed : bool) (cost : CostNode).

Section WithRuntime.
Context {RT : Runtime}.

(** The [FormData] built inside the [try]. *)
Definition buildFormData (s : State) : FormData :=
  let formData := [] in
  let formData := append (js "prompt") (FVString (prompt s)) formData in
  let formData :=
    append (js "negativePrompt") (FVString (negativePrompt s)) formData in
  let formData :=
    append (js "numberOfVideos")
           (FVString (numberToString (numberOfVideos s))) formData in
  let formData :=
    append (js "aspectRatio") (FVString (aspectRatio s)) formData in
  let formData :=
    append (js "durationSeconds")
           (FVString (numberToString (durationSeconds s))) formData in
  let formData := append (js "provider") (FVString (provider s)) formData in
  let formData :=
    if str_eqb (provider s) (js "veo-3") then
      let formData :=
        append (js "veo3Model") (FVString (veo3Model s)) formData in
      let formData :=
        append (js "veo3Resolution") (FVString (veo3Resolution s))
               formData in
      append (js "veo3Audio") (FVString (boolToString (veo3Audio s)))
             formData
    else formData in
  let formData :=
    match conditioningImage s with
    | Some image => append (js "conditioningImage") (FVFile image) formData
    | None => formData
    end in
  formData.

(** [handleGenerate] up to its first [await]: the state after the
    synchronous part and, unless the prompt is rejected, the request
    sent together with what the continuation remembers.  [now] is
    what [Date.now()] returns. *)
Definition handleGenerate_submit (now : Z) (s : State)
  : State * option (Request * Captured) :=
  if negb (truthy (trim (prompt s))) then
    (setMessage (js "Please enter a prompt before generating.") s, None)
  else
    let s1 := setIsGenerating true s in
    let s1 := setMessage (js "Generating...") s1 in
    let s1 := setVideos [] s1 in
    let startedAt := now in
    let s1 :=
      setGenerationMeta
        (Some {| meta_provider := provider s; meta_cost := None;
                 meta_startedAt := Some startedAt;
                 meta_completedAt := None; meta_error := None |}) s1 in
    (s1,
     Some ({| req_url := js "/api/generate-video";
              req_method := js "POST";
              req_body := buildFormData s |},
           {| cap_provider := provider s; cap_startedAt := startedAt |})).

(** The rest of the [try] block up to its first state update: what is
    thrown, or the parsed result.  On a body that parsed to [null],
    reading [result.videos] throws a [TypeError]. *)
Definition awaitResult (o : FetchOutcome) : Thrown + GenerationResult :=
  match o with
  | FetchRejected e => inl e
  | FetchResponse status body =>
      if negb (response_ok status)
      then inl (ThrownError (js "Failed to generate video"))
      else match body with
           | inl e => inl e
           | inr None => inl (ThrownError nullPropertyError)
           | inr (Some result) => inr result
           end
  end.

Definition successMessage (cost : option Q) : jsstring :=
  match cost with
  | Some c =>
      if truthyQ c
      then js "Video generated successfully " ++ [8226%N] ++ js " "
           ++ formatCurrency c
      else js "Video generated successfully!"
  | None => js "Video generated successfully!"
  end.

(** [handleGenerate] after the [await]: [try] continuation, [catch]
    and [finally], applied to the state current at that time.  [now]
    is what the second [Date.now()] returns. *)
Definition handleGenerate_settle (cap : Captured) (o : FetchOutcome)
    (now : Z) (s : State) : State :=
  let s :=
    match awaitResult o with
    | inr result =>
        let s :=
          setVideos (match res_videos result with
                     | Some vs => vs
                     | None => []
                     end) s in
        let s :=
          setGenerationMeta
            (Some {| meta_provider :=
                       match res_provider result with
                       | Some p => if truthy p then p else cap_provider cap
                       | None => cap_provider cap
                       end;
                     meta_cost := res_cost result;
                     meta_startedAt := Some (cap_startedAt cap);
                     meta_completedAt := Some now;
                     meta_error := None |}) s in
        setMessage (successMessage (res_cost result)) s
    | inl error =>
        let s :=
          setGenerationMeta
            (Some {| meta_provider := cap_provider cap;
                     meta_cost := None;
                     meta_startedAt := Some (cap_startedAt cap);
                     meta_completedAt := Some now;
                     meta_error :=
                       Some (match error with
                             | ThrownError msg => msg
                             | ThrownOther => js "Unknown error"
                             end) |}) s in
        setMessage (js "Failed to generate video. Please try again.") s
    end in
  setIsGenerating false s.

(** A whole run of the handler when nothing else touches the state
    while the request is in flight. *)
Definition handleGenerate (now1 : Z) (o : FetchOutcome) (now2 : Z)
    (s : State) : State * list Request :=
  match handleGenerate_submit now1 s with
  | (s1, None) => (s1, [])
  | (s1, Some (req, cap)) => (handleGenerate_settle cap o now2 s1, [req])
  end.

(** [{generationMeta.cost && (<p>Actual cost: ...</p>)}]. *)
Definition renderActualCost (m : GenerationMeta) : CostNode :=
  match meta_cost m with
  | None => CostNothing
  | Some c =>
      if truthyQ c then CostLine (js "Actual cost: " ++ formatCurrency c)
      else CostNumber c
  end.

(** The "Last generation" card,
    [{generationMeta?.completedAt && (<div>...</div>)}]: absent without
    metadata or completion timestamp, the number itself for a timestamp
    of 0, and otherwise the card, which tells whether an error was
    recorded and holds the cost node. *)
Definition renderLastGeneration (meta : option GenerationMeta) : CardNode :=
  match meta with
  | None => NoCard
  | Some m =>
      match meta_completedAt m with
      | None => NoCard
      | Some t =>
          if t =? 0 then CardNumber t
          else Card (match meta_error m with
                     | Some e => truthy e
                     | None => false
                     end)
                    (renderActualCost m)
      end
  end.

(** The keys of the payload, in order. *)
Definition payloadKeys (s : State) : list jsstring :=
  map fst (buildFormData s).

End WithRuntime.

End Orchestrator.

(* ================================================================== *)
(** ** Route protection ([proxy]) *)
(* ================================================================== *)

Module Proxy.

Record User := { user_id : jsstring }.

(** The cookie-cached session, as far as the middleware reads it. *)
Record Session := { user : option User }.

Inductive NextResponse :=
| next
| redirect (path : jsstring).

(** [!!session?.user]. *)
Definition isLoggedIn (session : option Session) : bool :=
  match session with
  | Some {| user := Some _ |} => true
  | _ => false
  end.

(** [session] is what [getCookieCache(req)] resolved to and [pathname]
    is [req.nextUrl.pathname]. *)
Definition proxy (session : option Session) (pathname : jsstring)
  : NextResponse :=
  let isLoggedIn := isLoggedIn session in
  (* Allow access to public pages *)
  if startsWith pathname (js "/auth/")
     || str_eqb pathname (js "/")
     || startsWith pathname (js "/api/auth/")
  then next
  else
    (* Require authentication for other protected routes *)
    let others :=
      if negb isLoggedIn then redirect (js "/auth/signin") else next in
    (* Require authentication for video generation *)
    if startsWith pathname (js "/api/generate-video")
    then if negb isLoggedIn then redirect (js "/auth/signin") else others
    else others.

(** The public allow-list, as the spec words it: the root, what is
    under [/auth/], and what is under [/api/auth/]. *)
Definition publicPath (pathname : jsstring) : Prop :=
  pathname = js "/"
  \/ (exists rest, pathname = js "/auth/" ++ rest)
  \/ (exists rest, pathname = js "/api/auth/" ++ rest).

End Proxy.

(* ================================================================== *)
(** ** The bounds a provider declares *)
(* ================================================================== *)

Module Bounds.

(** The count is 1 for a provider without multiple videos and within
    [1 .. maxVideos || 1] otherwise. *)
Definition countWithinBounds (P : VideoProvider) (n : Z) : Prop :=
  if supportsMultipleVideos (capabilities P)
  then 1 <= n <= num_or (maxVideos (capabilities P)) 1
  else n = 1.

(** The aspect ratio is one of the supported ones when there are any. *)
Definition aspectWithinBounds (P : VideoProvider) (a : jsstring) : Prop :=
  supportedAspectRatios P <> [] -> In a (supportedAspectRatios P).

(** The duration is one of the declared discrete durations or does not
    exceed the maximum. *)
Definition durationWithinBounds (P : VideoProvider) (d : Z) : Prop :=
  (supportedDurations (capabilities P) <> []
   /\ In d (supportedDurations (capabilities P)))
  \/ d <= maxDuration P.

Definition withinBounds (P : VideoProvider) (s : State) : Prop :=
  countWithinBounds P (numberOfVideos s)
  /\ aspectWithinBounds P (aspectRatio s)
  /\ durationWithinBounds P (durationSeconds s).

(** The count limit a provider with multiple videos works with is a
    usable one: [maxVideos || 1] is at least 1. *)
Definition declaresUsableCount (P : VideoProvider) : Prop :=
  supportsMultipleVideos (capabilities P) = true ->
  1 <= num_or (maxVideos (capabilities P)) 1.

(** No discrete duration exceeds the provider's maximum. *)
Definition durationsWithinMax (P : VideoProvider) : Prop :=
  Forall (fun d => d <= maxDuration P) (supportedDurations (capabilities P)).

(** What idempotence of the duration rule takes: the first discrete
    duration does not exceed the maximum, and when some discrete duration
    does, the maximum is a discrete duration itself. *)
Definition durationsStable (P : VideoProvider) : Prop :=
  match supportedDurations (capabilities P) with
  | [] => True
  | first :: _ =>
      first <= maxDuration P
      /\ (forall a, In a (supportedDurations (capabilities P)) ->
                    maxDuration P < a ->
                    In (maxDuration P) (supportedDurations (capabilities P)))
  end.

(** A number that is not in the list. *)
Definition fresh (l : list Z) : Z := fold_right Z.max 0 l + 1.

End Bounds.

(* ================================================================== *)
(** ** Sample data *)
(* ================================================================== *)

Module Samples.

(** Supports multiple videos and declares a negative limit. *)
Definition negativeLimitProvider : VideoProvider :=
  {| id := js "p"; name := js "P"; description := [];
     features := [];
     pricing := {| costPerSecond := 0%Q; freeTier := None |};
     maxDuration := 10; supportedAspectRatios := [js "16:9"];
     capabilities :=
       {| supportsMultipleVideos := true; maxVideos := Some (-2);
          supportsConditioningImage := false;
          supportsNegativePrompt := false;
          supportedDurations := []; supportsResolution := false;
          supportedResolutions := []; supportsFPS := false;
          supportedFPS := [] |} |}.

(** Declares the single discrete duration 10 and the maximum 8. *)
Definition longDurationProvider : VideoProvider :=
  {| id := js "q"; name := js "Q"; description := [];
     features := [];
     pricing := {| costPerSecond := 0%Q; freeTier := None |};
     maxDuration := 8; supportedAspectRatios := [js "16:9"];
     capabilities :=
       {| supportsMultipleVideos := false; maxVideos := None;
          supportsConditioningImage := false;
          supportsNegativePrompt := false;
          supportedDurations := [10]; supportsResolution := false;
          supportedResolutions := []; supportsFPS := false;
          supportedFPS := [] |} |}.

(** A well-formed provider: up to 4 videos, durations 5 and 10 of at
    most 10 seconds, two aspect ratios, 5 cents a second. *)
Definition sampleProvider : VideoProvider :=
  {| id := js "veo-3"; name := js "Veo 3"; description := [];
     features := [];
     pricing := {| costPerSecond := 5 # 100; freeTier := None |};
     maxDuration := 10; supportedAspectRatios := [js "16:9"; js "9:16"];
     capabilities :=
       {| supportsMultipleVideos := true; maxVideos := Some 4;
          supportsConditioningImage := true;
          supportsNegativePrompt := false;
          supportedDurations := [5; 10]; supportsResolution := false;
          supportedResolutions := []; supportsFPS := false;
          supportedFPS := [] |} |}.

Definition sampleImage : File :=
  {| file_name := js "a.png"; file_bytes := [137; 80; 78; 71]%N |}.

(** A form state out of the sample provider's bounds. *)
Definition sampleState : State :=
  {| provider := js "veo-3"; prompt := js "a cat on a skateboard";
     negativePrompt := js "blur"; numberOfVideos := 9;
     aspectRatio := js "1:1"; durationSeconds := 7;
     conditioningImage := Some sampleImage;
     veo3Model := js "veo3-fast"; veo3Resolution := js "720p";
     veo3Audio := true; isGenerating := false; message := [];
     videos := [js "old.mp4"];
     generationMeta :=
       Some {| meta_provider := js "veo-3"; meta_cost := Some (1 # 2);
               meta_startedAt := Some 1000; meta_completedAt := Some 2000;
               meta_error := None |};
     copiedVideoUrl := None |}.

(** The same form with a prompt of blanks only. *)
Definition blankPromptState : State :=
  {| provider := js "veo-3"; prompt := js "   ";
     negativePrompt := js "blur"; numberOfVideos := 2;
     aspectRatio := js "16:9"; durationSeconds := 5;
     conditioningImage := Some sampleImage;
     veo3Model := js "veo3-fast"; veo3Resolution := js "720p";
     veo3Audio := true; isGenerating := false; message := [];
     videos := [js "old.mp4"];
     generationMeta :=
       Some {| meta_provider := js "veo-3"; meta_cost := Some (1 # 2);
               meta_startedAt := Some 1000; meta_completedAt := Some 2000;
               meta_error := None |};
     copiedVideoUrl := None |}.

(** A runtime to evaluate with: decimal numerals, and amounts printed
    as dollars and cents, rounded to the nearest cent (amounts are not
    negative). *)
Definition decimal (z : Z) : jsstring :=
  js (NilZero.string_of_int (Z.to_int z)).

Definition usd (q : Q) : jsstring :=
  let cents := Qfloor (q * 100 + (1 # 2))%Q in
  let c := cents mod 100 in
  js "$" ++ decimal (cents / 100) ++ js "."
     ++ (if c <? 10 then js "0" else []) ++ decimal c.

Definition sampleRuntime : Runtime :=
  {| numberToString := decimal; formatCurrency := usd;
     nullPropertyError :=
       js "Cannot read properties of null (reading 'videos')" |}.

End Samples.


(* ================================================================== *)
(** ** The remaining state cells and the input handlers *)
(* ================================================================== *)

Module Form.

Definition setProvider (v : jsstring) (s : State) : State :=
  {| provider := v; prompt := prompt s; negativePrompt := negativePrompt s;
     numberOfVideos := numberOfVideos s; aspectRatio := aspectRatio s;
     durationSeconds := durationSeconds s;
     conditioningImage := conditioningImage s; veo3Model := veo3Model s;
     veo3Resolution := veo3Resolution s; veo3Audio := veo3Audio s;
     isGenerating := isGenerating s; message := message s;
     videos := videos s; generationMeta := generationMeta s;
     copiedVideoUrl := copiedVideoUrl s |}.

Definition setPrompt (v : jsstring) (s : State) : State :=
  {| provider := provider s; prompt := v;
     negativePrompt := negativePrompt s;
     numberOfVideos := numberOfVideos s; aspectRatio := aspectRatio s;
     durationSeconds := durationSeconds s;
     conditioningImage := conditioningImage s; veo3Model := veo3Model s;
     veo3Resolution := veo3Resolution s; veo3Audio := veo3Audio s;
     isGenerating := isGenerating s; message := message s;
     videos := videos s; generationMeta := generationMeta s;
     copiedVideoUrl := copiedVideoUrl s |}.

Definition setVeo3Model (v : jsstring) (s : State) : State :=
  {| provider := provider s; prompt := prompt s;
     negativePrompt := negativePrompt s;
     numberOfVideos := numberOfVideos s; aspectRatio := aspectRatio s;
     durationSeconds := durationSeconds s;
     conditioningImage := conditioningImage s; veo3Model := v;
     veo3Resolution := veo3Resolution s; veo3Audio := veo3Audio s;
     isGenerating := isGenerating s; message := message s;
     videos := videos s; generationMeta := generationMeta s;
     copiedVideoUrl := copiedVideoUrl s |}.

Definition setVeo3Resolution (v : jsstring) (s : State) : State :=
  {| provider := provider s; prompt := prompt s;
     negativePrompt := negativePrompt s;
     numberOfVideos := numberOfVideos s; aspectRatio := aspectRatio s;
     durationSeconds := durationSeconds s;
     conditioningImage := conditioningImage s; veo3Model := veo3Model s;
     veo3Resolution := v; veo3Audio := veo3Audio s;
     isGenerating := isGenerating s; message := message s;
     videos := videos s; generationMeta := generationMeta s;
     copiedVideoUrl := copiedVideoUrl s |}.

Definition setVeo3Audio (v : bool) (s : State) : State :=
  {| provider := provider s; prompt := prompt s;
     negativePrompt := negativePrompt s;
     numberOfVideos := numberOfVideos s; aspectRatio := aspectRatio s;
     durationSeconds := durationSeconds s;
     conditioningImage := conditioningImage s; veo3Model := veo3Model s;
     veo3Resolution := veo3Resolution s; veo3Audio := v;
     isGenerating := isGenerating s; message := message s;
     videos := videos s; generationMeta := generationMeta s;
     copiedVideoUrl := copiedVideoUrl s |}.

Definition setCopiedVideoUrl (v : option jsstring) (s : State) : State :=
  {| provider := provider s; prompt := prompt s;
     negativePrompt := negativePrompt s;
     numberOfVideos := numberOfVideos s; aspectRatio := aspectRatio s;
     durationSeconds := durationSeconds s;
     conditioningImage := conditioningImage s; veo3Model := veo3Model s;
     veo3Resolution := veo3Resolution s; veo3Audio := veo3Audio s;
     isGenerating := isGenerating s; message := message s;
     videos := videos s; generationMeta := generationMeta s;
     copiedVideoUrl := v |}.

(** [handleImageChange]: [file] is [e.target.files?.[0]]. *)
Definition handleImageChange (file : option File) (s : State) : State :=
  match file with
  | Some f => setConditioningImage (fun _ => Some f) s
  | None => s
  end.

(** [onChange] of the number-of-videos input; [v] is
    [Number(e.target.value)]. *)
Definition onNumberOfVideosChange (v : Z) (s : State) : State :=
  setNumberOfVideos (fun _ => Z.max 1 v) s.

(** [onChange] of the duration number input; [v] is
    [Number(e.target.value)]. *)
Definition onDurationInputChange (v : Z) (s : State) : State :=
  setDurationSeconds (fun _ => Z.max 3 v) s.

(** [onChange] of the duration select; [v] is [Number(e.target.value)]. *)
Definition onDurationSelectChange (v : Z) (s : State) : State :=
  setDurationSeconds (fun _ => v) s.

(** The cells the form controls hold are the same in two states. *)
Definition sameForm (s t : State) : Prop :=
  provider s = provider t /\ prompt s = prompt t
  /\ negativePrompt s = negativePrompt t
  /\ numberOfVideos s = numberOfVideos t
  /\ aspectRatio s = aspectRatio t
  /\ durationSeconds s = durationSeconds t
  /\ conditioningImage s = conditioningImage t
  /\ veo3Model s = veo3Model t /\ veo3Resolution s = veo3Resolution t
  /\ veo3Audio s = veo3Audio t.

End Form.

(* ================================================================== *)
(** ** Derived display values *)
(* ================================================================== *)

Module Widgets.

(** [a ?? b] where [a] is an optional number. *)
Definition num_nullish (a : option Z) (b : Z) : Z :=
  match a with
  | Some v => v
  | None => b
  end.

(** [s.includes(sub)] on strings. *)
Fixpoint str_includes (s sub : jsstring) : bool :=
  startsWith s sub
  || match s with
     | [] => false
     | _ :: r => str_includes r sub
     end.

(** [arr.join(sep)]. *)
Fixpoint join (sep : jsstring) (l : list jsstring) : jsstring :=
  match l with
  | [] => []
  | x :: r =>
      match r with
      | [] => x
      | _ :: _ => x ++ sep ++ join sep r
      end
  end.

(** [lastGenerationDuration]: both timestamps must be truthy; the
    elapsed milliseconds are divided by 1000 and rounded to the nearest
    integer, halves upwards ([Math.round]), which on integers is the
    floor of [(ms + 500) / 1000]. *)
Definition lastGenerationDuration (meta : option GenerationMeta) : option Z :=
  match meta with
  | Some m =>
      match meta_startedAt m, meta_completedAt m with
      | Some startedAt, Some completedAt =>
          if negb (startedAt =? 0) && negb (completedAt =? 0)
          then Some (Z.max 1 ((completedAt - startedAt + 500) / 1000))
          else None
      | _, _ => None
      end
  | None => None
  end.

Definition bannerGreen : jsstring :=
  js "border-green-600/40 bg-green-900/30 text-green-200".
Definition bannerRed : jsstring :=
  js "border-red-600/40 bg-red-900/30 text-red-200".
Definition bannerBlue : jsstring :=
  js "border-blue-600/40 bg-blue-900/30 text-blue-200".

(** The colour classes of the status banner, [{message && (...)}]:
    there is no banner for an empty message. *)
Definition bannerClass (message : jsstring) : option jsstring :=
  if truthy message then
    Some (if str_includes message (js "successfully") then bannerGreen
          else if str_includes message (js "Failed")
                  || str_includes message (js "Please") then bannerRed
          else bannerBlue)
  else None.

Record ChecklistItem := {
  item_label : jsstring;
  item_ready : bool;
  item_helper : jsstring
}.

Section WithRuntime.
Context {RT : Runtime}.

Definition promptClarityItem (score : nat) : ChecklistItem :=
  {| item_label := js "Prompt clarity";
     item_ready := (2 <=? score)%nat;
     item_helper :=
       if (2 <=? score)%nat then js "Strong descriptive prompt"
       else js "Add more context (" ++ [8805%N]
            ++ js " 15 words) for cinematic results" |}.

Definition providerLimitsItem (selected : option VideoProvider)
  : ChecklistItem :=
  {| item_label := js "Provider limits";
     item_ready := match selected with Some _ => true | None => false end;
     item_helper :=
       match selected with
       | Some P =>
           js "Max " ++ numberToString (maxDuration P) ++ js "s "
              ++ [8226%N] ++ js " "
              ++ join (js ", ") (supportedAspectRatios P)
       | None => js "Choose a provider"
       end |}.

Definition referenceImageItem (selected : option VideoProvider)
    (conditioningImage : option File) : ChecklistItem :=
  let supports :=
    match selected with
    | Some P => supportsConditioningImage (capabilities P)
    | None => false
    end in
  {| item_label := js "Reference image";
     item_ready :=
       negb supports
       || match conditioningImage with Some _ => true | None => false end;
     item_helper :=
       if supports then
         match conditioningImage with
         | Some image => file_name image ++ js " attached"
         | None => js "Optional but helps with consistency"
         end
       else js "Not available for this provider" |}.

Definition batchSizeItem (selected : option VideoProvider)
    (numberOfVideos : Z) : ChecklistItem :=
  let supports :=
    match selected with
    | Some P => supportsMultipleVideos (capabilities P)
    | None => false
    end in
  let limit :=
    match selected with
    | Some P => num_nullish (maxVideos (capabilities P)) 1
    | None => 1
    end in
  {| item_label := js "Batch size";
     item_ready := negb supports || (numberOfVideos <=? limit);
     item_helper :=
       if supports
       then js "Up to " ++ numberToString limit ++ js " variations"
       else js "Single video only" |}.

(** [readinessChecklist]. *)
Definition readinessChecklist (score : nat) (selected : option VideoProvider)
    (conditioningImage : option File) (numberOfVideos : Z)
  : list ChecklistItem :=
  [ promptClarityItem score;
    providerLimitsItem selected;
    referenceImageItem selected conditioningImage;
    batchSizeItem selected numberOfVideos ].

End WithRuntime.

End Widgets.

(* ================================================================== *)
(** ** The component as a transition system *)
(* ================================================================== *)

Module Studio.
Import Form Reconciler Orchestrator.

(** The component between two events: its state cells and the requests
    in flight, each as what its continuation remembers. *)
Record System := {
  ui : State;
  pending : list Captured
}.

(** What can happen to the mounted component: the [onChange] and
    [onClick] handlers of its controls, carrying the value read from the
    control, and the completion of a request in flight. *)
Inductive Event :=
| EditPrompt (v : jsstring)
| EditNegativePrompt (v : jsstring)
| ChooseProvider (pid : jsstring)
| TypeNumberOfVideos (v : Z)
| ChooseAspectRatio (v : jsstring)
| ChooseDuration (v : Z)
| TypeDuration (v : Z)
| PickImage (file : option File)
| RemoveImage
| ChooseVeo3Model (v : jsstring)
| ChooseVeo3Resolution (v : jsstring)
| CheckVeo3Audio (v : bool)
| Generate (now : Z)
| Settle (i : nat) (o : FetchOutcome) (now : Z)
| UrlCopied (url : jsstring)
| CopiedExpired.

Fixpoint remove_nth {A} (i : nat) (l : list A) : list A :=
  match l, i with
  | [], _ => []
  | _ :: r, O => r
  | x :: r, S j => x :: remove_nth j r
  end.

Section WithCatalog.
Context {RT : Runtime}.
Variable providers : list VideoProvider.

(** [selectedProvider?.capabilities.flag], as a condition. *)
Definition selectedHas (flag : Capabilities -> bool) (s : State) : bool :=
  match selectedProvider providers s with
  | Some P => flag (capabilities P)
  | None => false
  end.

(** Whether the control of an event is there to fire it, with that
    value: a control is rendered under its guard, a select only offers
    its options, the Generate button is disabled while generating, and a
    request completes only if it is in flight.  Clipboard events are not
    restricted. *)
Definition enabled (sys : System) (e : Event) : bool :=
  let s := ui sys in
  match e with
  | EditPrompt _ => true
  | EditNegativePrompt _ => selectedHas supportsNegativePrompt s
  | ChooseProvider pid => includes_str (map id providers) pid
  | TypeNumberOfVideos _ => selectedHas supportsMultipleVideos s
  | ChooseAspectRatio v =>
      match selectedProvider providers s with
      | Some P => includes_str (supportedAspectRatios P) v
      | None => false
      end
  | ChooseDuration v =>
      match selectedProvider providers s with
      | Some P => includes_num (supportedDurations (capabilities P)) v
      | None => false
      end
  | TypeDuration _ =>
      match selectedProvider providers s with
      | Some P =>
          match supportedDurations (capabilities P) with
          | [] => true
          | _ :: _ => false
          end
      | None => true
      end
  | PickImage _ => selectedHas supportsConditioningImage s
  | RemoveImage =>
      selectedHas supportsConditioningImage s
      && match conditioningImage s with Some _ => true | None => false end
  | ChooseVeo3Model v =>
      str_eqb (provider s) (js "veo-3")
      && includes_str [js "veo3-fast"; js "veo3-quality"] v
  | ChooseVeo3Resolution v =>
      str_eqb (provider s) (js "veo-3")
      && includes_str [js "720p"; js "1080p"] v
  | CheckVeo3Audio _ => str_eqb (provider s) (js "veo-3")
  | Generate _ => negb (isGenerating s)
  | Settle i _ _ =>
      match nth_error (pending sys) i with
      | Some _ => true
      | None => false
      end
  | UrlCopied _ => true
  | CopiedExpired => true
  end.

Definition with_ui (sys : System) (s : State) : System :=
  {| ui := s; pending := pending sys |}.

(** The handler of an event.  Choosing the provider that is already
    selected changes nothing; choosing another one changes
    [selectedProvider], so that the reconciliation effect runs before
    the next event. *)
Definition handle (e : Event) (sys : System) : System :=
  let s := ui sys in
  match e with
  | EditPrompt v => with_ui sys (setPrompt v s)
  | EditNegativePrompt v => with_ui sys (setNegativePrompt (fun _ => v) s)
  | ChooseProvider pid =>
      if str_eqb pid (provider s) then sys
      else with_ui sys (reconciliationEffect providers (setProvider pid s))
  | TypeNumberOfVideos v => with_ui sys (onNumberOfVideosChange v s)
  | ChooseAspectRatio v => with_ui sys (setAspectRatio (fun _ => v) s)
  | ChooseDuration v => with_ui sys (onDurationSelectChange v s)
  | TypeDuration v => with_ui sys (onDurationInputChange v s)
  | PickImage file => with_ui sys (handleImageChange file s)
  | RemoveImage => with_ui sys (setConditioningImage (fun _ => None) s)
  | ChooseVeo3Model v => with_ui sys (setVeo3Model v s)
  | ChooseVeo3Resolution v => with_ui sys (setVeo3Resolution v s)
  | CheckVeo3Audio v => with_ui sys (setVeo3Audio v s)
  | Generate now =>
      match handleGenerate_submit now s with
      | (s1, Some (_, cap)) => {| ui := s1; pending := pending sys ++ [cap] |}
      | (s1, None) => {| ui := s1; pending := pending sys |}
      end
  | Settle i o now =>
      match nth_error (pending sys) i with
      | Some cap =>
          {| ui := handleGenerate_settle cap o now s;
             pending := remove_nth i (pending sys) |}
      | None => sys
      end
  | UrlCopied url => with_ui sys (setCopiedVideoUrl (Some url) s)
  | CopiedExpired => with_ui sys (setCopiedVideoUrl None s)
  end.

(** The component once mounted: the initial cells after the effect's
    first run, nothing in flight. *)
Definition mount : System :=
  {| ui := reconciliationEffect providers (initialState providers);
     pending := [] |}.

(** The system after a sequence of events, if each was enabled when it
    happened. *)
Fixpoint run (events : list Event) (sys : System) : option System :=
  match events with
  | [] => Some sys
  | e :: rest => if enabled sys e then run rest (handle e sys) else None
  end.

(** The state shows nothing the selected provider does not support: no
    negative prompt, no reference image, a single video, and an aspect
    ratio the provider lists (if it lists any).  Without a selected
    provider, which takes an empty catalog, these cells are the initial
    ones. *)
Definition gated (s : State) : Prop :=
  match selectedProvider providers s with
  | Some P =>
      (supportsNegativePrompt (capabilities P) = false ->
       negativePrompt s = [])
      /\ (supportsConditioningImage (capabilities P) = false ->
          conditioningImage s = None)
      /\ (supportsMultipleVideos (capabilities P) = false ->
          numberOfVideos s = 1)
      /\ (supportedAspectRatios P <> [] ->
          In (aspectRatio s) (supportedAspectRatios P))
  | None =>
      providers = [] /\ negativePrompt s = []
      /\ conditioningImage s = None /\ numberOfVideos s = 1
  end.

(** What the submit step records for an attempt. *)
Definition startedMeta (cap : Captured) : GenerationMeta :=
  {| meta_provider := cap_provider cap; meta_cost := None;
     meta_startedAt := Some (cap_startedAt cap);
     meta_completedAt := None; meta_error := None |}.

(** Either nothing is in flight and the component is not generating, or
    exactly one request is, the component is generating, and the
    metadata are those of that request. *)
Definition singleFlight (sys : System) : Prop :=
  (pending sys = [] /\ isGenerating (ui sys) = false)
  \/ (exists cap,
        pending sys = [cap] /\ isGenerating (ui sys) = true
        /\ generationMeta (ui sys) = Some (startedMeta cap)).

(** A discrete duration is selected whenever the selected provider
    declares discrete durations. *)
Definition discreteDuration (s : State) : Prop :=
  forall P, selectedProvider providers s = Some P ->
            supportedDurations (capabilities P) <> [] ->
            In (durationSeconds s) (supportedDurations (capabilities P)).

End WithCatalog.

End Studio.

(* ================================================================== *)
(** ** More sample data *)
(* ================================================================== *)

Module StudioSamples.
Import Samples Orchestrator Studio.

(** A provider without any optional capability, free durations up to 8
    seconds. *)
Definition plainProvider : VideoProvider :=
  {| id := js "plain"; name := js "Plain"; description := [];
     features := [];
     pricing := {| costPerSecond := 3 # 100; freeTier := None |};
     maxDuration := 8; supportedAspectRatios := [js "16:9"];
     capabilities :=
       {| supportsMultipleVideos := false; maxVideos := None;
          supportsConditioningImage := false;
          supportsNegativePrompt := false;
          supportedDurations := []; supportsResolution := false;
          supportedResolutions := []; supportsFPS := false;
          supportedFPS := [] |} |}.

Definition sampleCatalog : list VideoProvider :=
  [sampleProvider; plainProvider].

(** A session at the form: an image and three videos are chosen for the
    first provider, the second provider is chosen, a prompt is typed, the
    request is sent and answered with a server error. *)
Definition sampleEvents : list Event :=
  [ PickImage (Some sampleImage);
    TypeNumberOfVideos 3;
    ChooseAspectRatio (js "9:16");
    ChooseProvider (js "plain");
    EditPrompt (js "a cat on a skateboard");
    Generate 5000;
    Settle 0 (FetchResponse 500 (inl ThrownOther)) 9000 ].

(** Where that session ends. *)
Definition sampleFinal : System :=
  match run (RT := sampleRuntime) sampleCatalog sampleEvents
          (mount sampleCatalog) with
  | Some sys => sys
  | None => mount sampleCatalog
  end.

(** Leaving the first provider, typing a duration, and coming back. *)
Definition durationEvents : list Event :=
  [ ChooseProvider (js "plain"); TypeDuration 7;
    ChooseProvider (js "veo-3") ].

Definition durationFinal : System :=
  match run (RT := sampleRuntime) sampleCatalog durationEvents
          (mount sampleCatalog) with
  | Some sys => sys
  | None => mount sampleCatalog
  end.

End StudioSamples.
(* ================================================================== *)
(** * Properties *)
(* ================================================================== *)

(** ** Strings and arrays *)

Lemma str_eqb_eq (a b : jsstring) : str_eqb a b = true <-> a = b.
Proof.
  revert b; induction a as [|x a IH]; intros [|y b]; simpl;
    try (split; [discriminate | congruence]); try tauto.
  rewrite andb_true_iff, N.eqb_eq, IH.
  split; [intros [-> ->]; reflexivity | intros E; inversion E; auto].
Qed.

Lemma str_eqb_refl (a : jsstring) : str_eqb a a = true.
Proof. apply str_eqb_eq; reflexivity. Qed.

Lemma includes_str_In (l : list jsstring) (x : jsstring) :
  includes_str l x = true <-> In x l.
Proof.
  unfold includes_str. rewrite existsb_exists. split.
  - intros (y & Hy & E). apply str_eqb_eq in E. subst; assumption.
  - intros H. exists x. split; [assumption | apply str_eqb_refl].
Qed.

Lemma includes_num_In (l : list Z) (x : Z) :
  includes_num l x = true <-> In x l.
Proof.
  unfold includes_num. rewrite existsb_exists. split.
  - intros (y & Hy & E). apply Z.eqb_eq in E. subst; assumption.
  - intros H. exists x. split; [assumption | apply Z.eqb_refl].
Qed.

(** Two states with the same cells are the same state. *)
Lemma State_ext (s t : State) :
  provider s = provider t -> prompt s = prompt t ->
  negativePrompt s = negativePrompt t ->
  numberOfVideos s = numberOfVideos t ->
  aspectRatio s = aspectRatio t ->
  durationSeconds s = durationSeconds t ->
  conditioningImage s = conditioningImage t ->
  veo3Model s = veo3Model t -> veo3Resolution s = veo3Resolution t ->
  veo3Audio s = veo3Audio t -> isGenerating s = isGenerating t ->
  message s = message t -> videos s = videos t ->
  generationMeta s = generationMeta t ->
  copiedVideoUrl s = copiedVideoUrl t ->
  s = t.
Proof.
  destruct s, t; simpl; intros; subst; reflexivity.
Qed.

(* ================================================================== *)
(** ** Reconciliation *)
(* ================================================================== *)

Module ReconcilerFacts.
Import Reconciler.

Import Bounds Samples.

(** *** Field by field *)

Lemma reconcile_numberOfVideos P s :
  numberOfVideos (reconcile P s)
  = reconcileNumberOfVideos P (numberOfVideos s).
Proof. reflexivity. Qed.

Lemma reconcile_aspectRatio P s :
  aspectRatio (reconcile P s) = reconcileAspectRatio P (aspectRatio s).
Proof. reflexivity. Qed.

Lemma reconcile_durationSeconds P s :
  durationSeconds (reconcile P s)
  = reconcileDurationSeconds P (durationSeconds s).
Proof. reflexivity. Qed.

Lemma reconcile_conditioningImage P s :
  conditioningImage (reconcile P s)
  = reconcileConditioningImage P (conditioningImage s).
Proof. reflexivity. Qed.

Lemma reconcile_negativePrompt P s :
  negativePrompt (reconcile P s)
  = reconcileNegativePrompt P (negativePrompt s).
Proof. reflexivity. Qed.

(** The count never exceeds the limit in use, and reaches 1 as soon as
    that limit does. *)
Lemma count_clamped P prev :
  supportsMultipleVideos (capabilities P) = true ->
  reconcileNumberOfVideos P prev <= num_or (maxVideos (capabilities P)) 1
  /\ (1 <= num_or (maxVideos (capabilities P)) 1 ->
      1 <= reconcileNumberOfVideos P prev).
Proof.
  intros Hm. unfold reconcileNumberOfVideos. rewrite Hm. simpl. lia.
Qed.

Lemma count_single P prev :
  supportsMultipleVideos (capabilities P) = false ->
  reconcileNumberOfVideos P prev = 1.
Proof.
  intros Hm. unfold reconcileNumberOfVideos. rewrite Hm. reflexivity.
Qed.

Lemma aspect_supported P prev :
  aspectWithinBounds P (reconcileAspectRatio P prev).
Proof.
  unfold aspectWithinBounds, reconcileAspectRatio. intros Hne.
  destruct (includes_str (supportedAspectRatios P) prev) eqn:E.
  - apply includes_str_In; assumption.
  - destruct (supportedAspectRatios P) as [|a l]; [congruence | left; auto].
Qed.

Lemma duration_bounded P prev :
  durationWithinBounds P (reconcileDurationSeconds P prev).
Proof.
  unfold durationWithinBounds, reconcileDurationSeconds.
  destruct (supportedDurations (capabilities P)) as [|d0 l] eqn:El.
  - right. lia.
  - destruct (includes_num (d0 :: l) prev) eqn:E; simpl.
    + right. lia.
    + left. split; [discriminate | left; reflexivity].
Qed.

(** *** Running the pass twice *)

Lemma count_idempotent P prev :
  reconcileNumberOfVideos P (reconcileNumberOfVideos P prev)
  = reconcileNumberOfVideos P prev.
Proof.
  unfold reconcileNumberOfVideos.
  destruct (supportsMultipleVideos (capabilities P)); simpl; lia.
Qed.

Lemma image_idempotent P prev :
  reconcileConditioningImage P (reconcileConditioningImage P prev)
  = reconcileConditioningImage P prev.
Proof.
  unfold reconcileConditioningImage.
  destruct (supportsConditioningImage (capabilities P)); reflexivity.
Qed.

Lemma negative_idempotent P prev :
  reconcileNegativePrompt P (reconcileNegativePrompt P prev)
  = reconcileNegativePrompt P prev.
Proof.
  unfold reconcileNegativePrompt.
  destruct (supportsNegativePrompt (capabilities P)); reflexivity.
Qed.

Lemma aspect_idempotent P prev :
  reconcileAspectRatio P (reconcileAspectRatio P prev)
  = reconcileAspectRatio P prev.
Proof.
  unfold reconcileAspectRatio.
  destruct (includes_str (supportedAspectRatios P) prev) eqn:E.
  - rewrite E. reflexivity.
  - destruct (supportedAspectRatios P) as [|a l] eqn:El.
    + reflexivity.
    + replace (includes_str (a :: l) a) with true; [reflexivity|].
      symmetry. apply includes_str_In. left; reflexivity.
Qed.

Lemma includes_num_not_In (l : list Z) (x : Z) :
  includes_num l x = false <-> ~ In x l.
Proof.
  rewrite <- includes_num_In. destruct (includes_num l x); intuition congruence.
Qed.

Lemma within_max_stable P : durationsWithinMax P -> durationsStable P.
Proof.
  unfold durationsWithinMax, durationsStable. intros Hmax.
  rewrite Forall_forall in Hmax.
  destruct (supportedDurations (capabilities P)) as [|d0 l]; [exact I |].
  split.
  - apply Hmax. left; reflexivity.
  - intros a Ha Hlt. specialize (Hmax a Ha). lia.
Qed.

Lemma duration_idempotent_stable P prev :
  durationsStable P ->
  reconcileDurationSeconds P (reconcileDurationSeconds P prev)
  = reconcileDurationSeconds P prev.
Proof.
  unfold durationsStable, reconcileDurationSeconds.
  destruct (supportedDurations (capabilities P)) as [|d0 l] eqn:El.
  - intros _. lia.
  - intros [Hfirst Hover].
    assert (includes_num (d0 :: l) d0 = true) as Hd0
      by (apply includes_num_In; left; reflexivity).
    destruct (includes_num (d0 :: l) prev) eqn:E; cbn [negb].
    + destruct (Z_le_gt_dec prev (maxDuration P)) as [Hle | Hgt].
      * replace (Z.min prev (maxDuration P)) with prev by lia.
        rewrite E. cbn [negb]. lia.
      * replace (Z.min prev (maxDuration P)) with (maxDuration P) by lia.
        apply includes_num_In in E.
        assert (In (maxDuration P) (d0 :: l)) as Hin
          by (apply (Hover prev); [exact E | lia]).
        apply includes_num_In in Hin. rewrite Hin. cbn [negb]. lia.
    + rewrite Hd0. cbn [negb]. lia.
Qed.

Lemma duration_idempotent P prev :
  durationsWithinMax P ->
  reconcileDurationSeconds P (reconcileDurationSeconds P prev)
  = reconcileDurationSeconds P prev.
Proof.
  intros H. apply duration_idempotent_stable, within_max_stable, H.
Qed.

Lemma fresh_bound (l : list Z) (a : Z) : In a l -> a < fresh l.
Proof.
  unfold fresh. induction l as [|x l IH]; simpl; [tauto |].
  intros [-> | H]; [lia | specialize (IH H); lia].
Qed.

Lemma fresh_not_In (l : list Z) : ~ In (fresh l) l.
Proof. intros H. apply fresh_bound in H. lia. Qed.

(** The duration rule is idempotent on every input exactly for the
    providers with stable durations. *)
Lemma duration_idempotent_iff P :
  (forall prev,
      reconcileDurationSeconds P (reconcileDurationSeconds P prev)
      = reconcileDurationSeconds P prev)
  <-> durationsStable P.
Proof.
  split; [| intros H prev; apply duration_idempotent_stable, H].
  unfold durationsStable, reconcileDurationSeconds.
  destruct (supportedDurations (capabilities P)) as [|d0 l] eqn:El;
    [intros _; exact I |].
  intros Hidem.
  assert (includes_num (d0 :: l) d0 = true) as Hd0
    by (apply includes_num_In; left; reflexivity).
  split.
  - specialize (Hidem (fresh (d0 :: l))).
    rewrite (proj2 (includes_num_not_In _ _) (fresh_not_In (d0 :: l))) in Hidem.
    cbn [negb] in Hidem. rewrite Hd0 in Hidem. cbn [negb] in Hidem. lia.
  - intros a Ha Hlt. specialize (Hidem a).
    rewrite (proj2 (includes_num_In _ _) Ha) in Hidem. cbn [negb] in Hidem.
    replace (Z.min a (maxDuration P)) with (maxDuration P) in Hidem by lia.
    destruct (includes_num (d0 :: l) (maxDuration P)) eqn:E.
    + apply includes_num_In; assumption.
    + cbn [negb] in Hidem. rewrite <- Hidem in E. congruence.
Qed.

(** The count bound holds on every input exactly for the providers with
    a usable count limit. *)
Lemma count_within_bounds_iff P :
  (forall prev, countWithinBounds P (reconcileNumberOfVideos P prev))
  <-> declaresUsableCount P.
Proof.
  unfold countWithinBounds, declaresUsableCount, reconcileNumberOfVideos.
  destruct (supportsMultipleVideos (capabilities P)); cbn [negb].
  - split.
    + intros H _. specialize (H 1). lia.
    + intros H prev. specialize (H eq_refl). lia.
  - split; [discriminate | reflexivity].
Qed.

(** *** Evaluation *)

Example reconcile_sample :
  let s := reconcile sampleProvider sampleState in
  numberOfVideos s = 4 /\ aspectRatio s = js "16:9"
  /\ durationSeconds s = 5 /\ negativePrompt s = []
  /\ conditioningImage s = conditioningImage sampleState.
Proof. repeat split. Qed.

(** The spec's scenario: from a count of 4 to a provider with a single
    video, the count becomes 1. *)
Example reconcile_four_to_one :
  numberOfVideos
    (reconcile longDurationProvider
       (setNumberOfVideos (fun _ => 4) sampleState)) = 1.
Proof. reflexivity. Qed.

(** *** The properties of the pass *)

(** C1, as stated, for every provider: it fails for a provider that
    supports multiple videos and declares the limit -2. The count
    becomes -2, which is in no interval starting at 1. *)
Lemma reconcile_bounds_fail_negative_limit :
  numberOfVideos (reconcile negativeLimitProvider sampleState) = -2
  /\ ~ withinBounds negativeLimitProvider
        (reconcile negativeLimitProvider sampleState).
Proof.
  split; [reflexivity |].
  intros [Hcount _]. unfold countWithinBounds in Hcount.
  cbn in Hcount. lia.
Qed.

(** C1, amended: for every provider whose video limit in use
    ([maxVideos || 1]) is at least 1 when it supports multiple videos,
    and every prior form state, the reconciled state has its video
    count in [1 .. maxVideos || 1] (equal to 1 when the provider does
    not support multiple videos), its aspect ratio among the supported
    aspect ratios when there are any, and its duration among the
    supported durations or at most the maximum duration. *)
Theorem reconcile_within_bounds (P : VideoProvider) (s : State) :
  declaresUsableCount P -> withinBounds P (reconcile P s).
Proof.
  intros Hcount. unfold withinBounds.
  rewrite reconcile_numberOfVideos, reconcile_aspectRatio,
    reconcile_durationSeconds.
  split; [| split].
  - unfold countWithinBounds.
    destruct (supportsMultipleVideos (capabilities P)) eqn:Hm.
    + destruct (count_clamped P (numberOfVideos s) Hm) as [Hle Hge].
      split; [apply Hge, Hcount, Hm | exact Hle].
    + apply count_single; assumption.
  - apply aspect_supported.
  - apply duration_bounded.
Qed.

Lemma reconcile_within_bounds_witness :
  declaresUsableCount sampleProvider
  /\ withinBounds sampleProvider (reconcile sampleProvider sampleState).
Proof.
  assert (declaresUsableCount sampleProvider) as H
    by (intros _; cbn; lia).
  split; [exact H | exact (reconcile_within_bounds _ _ H)].
Defined.

(** C2, as stated, for every provider: it fails for a provider whose
    only discrete duration, 10, exceeds its maximum duration, 8. From
    a duration of 7 the first pass gives 10, the second gives 8. *)
Lemma reconcile_not_idempotent_long_duration :
  durationSeconds (reconcile longDurationProvider sampleState) = 10
  /\ durationSeconds
       (reconcile longDurationProvider
          (reconcile longDurationProvider sampleState)) = 8
  /\ reconcile longDurationProvider
       (reconcile longDurationProvider sampleState)
     <> reconcile longDurationProvider sampleState.
Proof.
  split; [reflexivity | split; [reflexivity |]].
  intros H. apply (f_equal durationSeconds) in H. cbn in H. lia.
Qed.

(** C2, amended: for every provider none of whose supported durations
    exceeds its maximum duration, and every form state, reconciling a
    reconciled state changes nothing. *)
Theorem reconcile_idempotent (P : VideoProvider) (s : State) :
  durationsWithinMax P ->
  reconcile P (reconcile P s) = reconcile P s.
Proof.
  intros Hmax. apply State_ext; try reflexivity.
  - rewrite !reconcile_negativePrompt. apply negative_idempotent.
  - rewrite !reconcile_numberOfVideos. apply count_idempotent.
  - rewrite !reconcile_aspectRatio. apply aspect_idempotent.
  - rewrite !reconcile_durationSeconds.
    apply duration_idempotent; assumption.
  - rewrite !reconcile_conditioningImage. apply image_idempotent.
Qed.

Lemma reconcile_idempotent_witness :
  durationsWithinMax sampleProvider
  /\ reconcile sampleProvider (reconcile sampleProvider sampleState)
     = reconcile sampleProvider sampleState.
Proof.
  assert (durationsWithinMax sampleProvider) as H
    by (repeat constructor; cbn; lia).
  split; [exact H | exact (reconcile_idempotent _ _ H)].
Defined.

(** C3: reconciling against a provider leaves the reference image as it
    was when the provider supports a conditioning image and sets it to
    null when it does not; it leaves the negative prompt as it was when
    the provider supports negative prompts and sets it to the empty
    string when it does not. *)
Theorem reconcile_image_and_negative_prompt (P : VideoProvider) (s : State) :
  conditioningImage (reconcile P s)
  = (if supportsConditioningImage (capabilities P)
     then conditioningImage s else None)
  /\ negativePrompt (reconcile P s)
     = (if supportsNegativePrompt (capabilities P)
        then negativePrompt s else []).
Proof. split; reflexivity. Qed.

(** The pass touches nothing but the five fields it normalizes. *)
Lemma reconcile_frame (P : VideoProvider) (s : State) :
  provider (reconcile P s) = provider s
  /\ prompt (reconcile P s) = prompt s
  /\ veo3Model (reconcile P s) = veo3Model s
  /\ veo3Resolution (reconcile P s) = veo3Resolution s
  /\ veo3Audio (reconcile P s) = veo3Audio s
  /\ isGenerating (reconcile P s) = isGenerating s
  /\ message (reconcile P s) = message s
  /\ videos (reconcile P s) = videos s
  /\ generationMeta (reconcile P s) = generationMeta s
  /\ copiedVideoUrl (reconcile P s) = copiedVideoUrl s.
Proof. repeat split. Qed.

End ReconcilerFacts.

(* ================================================================== *)
(** ** Cost estimate *)
(* ================================================================== *)

Module CostFacts.
Import Cost Samples.

Lemma per_video_unfold P d :
  estimatedCostPerVideo (Some P) d
  = (costPerSecond (pricing P) * inject_Z d)%Q.
Proof. reflexivity. Qed.

Lemma total_of_positive_count sel d (n : positive) :
  estimatedTotalCost sel d (Z.pos n)
  = (estimatedCostPerVideo sel d * inject_Z (Z.pos n))%Q.
Proof.
  unfold estimatedTotalCost.
  replace (Z.max 1 (Z.pos n)) with (Z.pos n) by lia. reflexivity.
Qed.

(** Twenty seconds at five cents a second, three videos: three
    dollars. *)
Example total_sample :
  (estimatedTotalCost (Some sampleProvider) 20 3 == 3)%Q.
Proof. reflexivity. Qed.

(** A count below 1 is billed as one video. *)
Example total_sample_zero_count :
  (estimatedTotalCost (Some sampleProvider) 20 0 == 1)%Q.
Proof. reflexivity. Qed.

(** C4: the per-video estimate is the provider's cost per second times
    the duration, and 0 when no provider is selected; the total is the
    per-video estimate times max(1, count), hence the per-video
    estimate times the count itself for every count of at least 1. *)
Theorem cost_estimate :
  (forall P d,
      estimatedCostPerVideo (Some P) d
      = (costPerSecond (pricing P) * inject_Z d)%Q)
  /\ (forall d, estimatedCostPerVideo None d = 0%Q)
  /\ (forall sel d n,
        estimatedTotalCost sel d n
        = (estimatedCostPerVideo sel d * inject_Z (Z.max 1 n))%Q)
  /\ (forall sel d (n : positive),
        estimatedTotalCost sel d (Z.pos n)
        = (estimatedCostPerVideo sel d * inject_Z (Z.pos n))%Q)
  /\ (forall P d (n : positive),
        estimatedTotalCost (Some P) d (Z.pos n)
        = (costPerSecond (pricing P) * inject_Z d * inject_Z (Z.pos n))%Q).
Proof.
  repeat split.
  - intros. apply total_of_positive_count.
  - intros. rewrite total_of_positive_count. reflexivity.
Qed.

End CostFacts.

(* ================================================================== *)
(** ** Prompt quality heuristic *)
(* ================================================================== *)

Module PromptFacts.
Import Prompt Samples.

Lemma truthy_rev (s : jsstring) : truthy (rev s) = truthy s.
Proof.
  destruct s as [|c s]; [reflexivity |]. simpl.
  destruct (rev s); reflexivity.
Qed.

(** Counting the non-empty pieces of a split counts the words. *)
Lemma split_counts_words (s cur : jsstring) (in_sep : bool) :
  (in_sep = true -> cur = []) ->
  List.length (filter truthy (split_ws_from cur in_sep s))
  = if truthy cur then S (spec_words_from false s)
    else spec_words_from true s.
Proof.
  revert cur in_sep.
  induction s as [|c r IH]; intros cur in_sep Hinv;
    cbn [split_ws_from spec_words_from].
  - cbn [filter]. rewrite truthy_rev.
    destruct (truthy cur); reflexivity.
  - destruct (is_white_space c).
    + destruct in_sep.
      * rewrite (Hinv eq_refl). rewrite IH by reflexivity. reflexivity.
      * cbn [filter]. rewrite truthy_rev.
        destruct (truthy cur); cbn [List.length];
          rewrite IH by reflexivity; reflexivity.
    + rewrite IH by discriminate. cbn [truthy].
      destruct (truthy cur); reflexivity.
Qed.

Lemma words_trimStart (s : jsstring) :
  spec_words_from true (trimStart s) = spec_words_from true s.
Proof.
  induction s as [|c r IH]; [reflexivity |]. simpl.
  destruct (is_white_space c) eqn:E; [exact IH |].
  simpl. rewrite E. reflexivity.
Qed.

Lemma words_snoc_space (s : jsstring) (c : N) (b : bool) :
  is_white_space c = true ->
  spec_words_from b (s ++ [c]) = spec_words_from b s.
Proof.
  intros Hc. revert b.
  induction s as [|x r IH]; intros b; simpl.
  - rewrite Hc. reflexivity.
  - destruct (is_white_space x); rewrite IH; reflexivity.
Qed.

Lemma trimEnd_snoc (s : jsstring) (c : N) :
  trimEnd (s ++ [c])
  = if is_white_space c then trimEnd s else s ++ [c].
Proof.
  unfold trimEnd. rewrite rev_app_distr. simpl.
  destruct (is_white_space c); [reflexivity |].
  simpl. rewrite rev_involutive. reflexivity.
Qed.

Lemma words_trimEnd (s : jsstring) (b : bool) :
  spec_words_from b (trimEnd s) = spec_words_from b s.
Proof.
  induction s as [|c s IH] using rev_ind; [reflexivity |].
  rewrite trimEnd_snoc.
  destruct (is_white_space c) eqn:E; [| reflexivity].
  rewrite IH, words_snoc_space by assumption. reflexivity.
Qed.

Lemma words_trim (s : jsstring) : spec_words (trim s) = spec_words s.
Proof.
  unfold spec_words, trim. rewrite words_trimEnd. apply words_trimStart.
Qed.

Lemma countWords_pieces (p : jsstring) :
  countWords p = List.length (filter truthy (split_ws (trim p))).
Proof.
  unfold countWords. destruct (trim p); reflexivity.
Qed.

Lemma countWords_spec (p : jsstring) : countWords p = spec_words p.
Proof.
  rewrite countWords_pieces. unfold split_ws.
  rewrite split_counts_words by discriminate. apply words_trim.
Qed.

Lemma words_insights (w : nat) : words (insightsOfWords w) = w.
Proof.
  unfold insightsOfWords.
  destruct (w =? 0)%nat, (w <? 12)%nat, (w <? 30)%nat; reflexivity.
Qed.

Lemma score_insights (w : nat) :
  score (insightsOfWords w)
  = if (w =? 0)%nat then 0%nat
    else if (w <? 12)%nat then 1%nat
    else if (w <? 30)%nat then 2%nat else 3%nat.
Proof.
  unfold insightsOfWords.
  destruct (w =? 0)%nat, (w <? 12)%nat, (w <? 30)%nat; reflexivity.
Qed.

Lemma score_cases (w : nat) :
  (w = 0 /\ score (insightsOfWords w) = 0)%nat
  \/ (1 <= w <= 11 /\ score (insightsOfWords w) = 1)%nat
  \/ (12 <= w <= 29 /\ score (insightsOfWords w) = 2)%nat
  \/ (30 <= w /\ score (insightsOfWords w) = 3)%nat.
Proof.
  rewrite score_insights.
  destruct (Nat.eqb_spec w 0); [left; lia |].
  destruct (Nat.ltb_spec w 12); [right; left; lia |].
  destruct (Nat.ltb_spec w 30); [right; right; left; lia |].
  right; right; right; lia.
Qed.

(** Five words, with tabs, line breaks and a no-break space between
    them and blanks around. *)
Example countWords_sample :
  countWords (js "  a cat" ++ [9; 10]%N ++ js "on" ++ [160]%N
              ++ js "a   skateboard ") = 5%nat.
Proof. reflexivity. Qed.

Example countWords_blank : countWords (js "   ") = 0%nat.
Proof. reflexivity. Qed.

Example split_keeps_empty_pieces :
  split_ws (js " a  b ") = [[]; js "a"; js "b"; []].
Proof. reflexivity. Qed.

(** C5: the word count is the number of non-empty pieces of the
    trimmed prompt split on whitespace, which is the number of words of
    the prompt; the tier (score) is 0 exactly for 0 words, 1 exactly
    for 1 to 11 words, 2 exactly for 12 to 29 words and 3 exactly for
    30 words or more; the tier does not decrease when the word count
    grows; and the insights are those of the prompt's word count,
    whatever else the prompt is. *)
Theorem prompt_tiers :
  (forall p,
      words (promptInsights p)
      = List.length (filter truthy (split_ws (trim p)))
      /\ words (promptInsights p) = spec_words p)
  /\ (forall p,
        let w := words (promptInsights p) in
        let tier := score (promptInsights p) in
        (tier = 0 <-> w = 0)%nat
        /\ (tier = 1 <-> 1 <= w <= 11)%nat
        /\ (tier = 2 <-> 12 <= w <= 29)%nat
        /\ (tier = 3 <-> 30 <= w)%nat)
  /\ (forall w extra : nat,
        (score (insightsOfWords w) <= score (insightsOfWords (w + extra)))%nat)
  /\ (forall p, promptInsights p = insightsOfWords (spec_words p)).
Proof.
  assert (forall w extra : nat,
    (score (insightsOfWords w) <= score (insightsOfWords (w + extra)))%nat)
    as Hmono.
  { intros w extra.
    destruct (score_cases w) as [H|[H|[H|H]]],
             (score_cases (w + extra)) as [H'|[H'|[H'|H']]]; lia. }
  split; [| split; [| split]].
  - intros p. unfold promptInsights. rewrite words_insights.
    split; [apply countWords_pieces | apply countWords_spec].
  - intros p. unfold promptInsights. cbv zeta. rewrite words_insights.
    destruct (score_cases (countWords p)) as [H|[H|[H|H]]]; lia.
  - exact Hmono.
  - intros p. unfold promptInsights. rewrite countWords_spec. reflexivity.
Qed.

End PromptFacts.

(* ================================================================== *)
(** ** Generation request orchestration *)
(* ================================================================== *)

Module OrchestratorFacts.
Import Orchestrator Samples.

Lemma truthy_false (s : jsstring) : truthy s = false <-> s = [].
Proof. destruct s; simpl; split; congruence. Qed.

Lemma response_ok_range (status : Z) :
  response_ok status = true <-> 200 <= status <= 299.
Proof. unfold response_ok. lia. Qed.

Lemma truthyQ_zero (c : Q) : truthyQ c = false <-> (c == 0)%Q.
Proof.
  unfold truthyQ, Qeq. simpl. rewrite negb_false_iff, Z.eqb_eq. lia.
Qed.

Lemma In_app_singleton {A} (x y : A) (l : list A) :
  In x (l ++ [y]) <-> In x l \/ x = y.
Proof. rewrite in_app_iff. simpl. intuition congruence. Qed.

Section WithRuntime.
Context {RT : Runtime}.

(** C6: when the prompt is empty after trimming, the handler returns
    after setting the message to the prompt-required text: no request
    is sent, whatever the clock and the network would have given, and
    every other cell of the state, among them [isGenerating], the
    videos and the generation metadata, is as it was. *)
Theorem empty_prompt_rejected (now : Z) (s : State) :
  trim (prompt s) = [] ->
  let s' := setMessage (js "Please enter a prompt before generating.") s in
  handleGenerate_submit now s = (s', None)
  /\ (forall o now2, handleGenerate now o now2 s = (s', []))
  /\ message s' = js "Please enter a prompt before generating."
  /\ isGenerating s' = isGenerating s
  /\ videos s' = videos s
  /\ generationMeta s' = generationMeta s
  /\ provider s' = provider s /\ prompt s' = prompt s
  /\ negativePrompt s' = negativePrompt s
  /\ numberOfVideos s' = numberOfVideos s
  /\ aspectRatio s' = aspectRatio s
  /\ durationSeconds s' = durationSeconds s
  /\ conditioningImage s' = conditioningImage s
  /\ veo3Model s' = veo3Model s /\ veo3Resolution s' = veo3Resolution s
  /\ veo3Audio s' = veo3Audio s
  /\ copiedVideoUrl s' = copiedVideoUrl s.
Proof.
  intros Hempty s'.
  assert (handleGenerate_submit now s = (s', None)) as Hsubmit.
  { unfold handleGenerate_submit. rewrite Hempty. reflexivity. }
  split; [exact Hsubmit |].
  split; [intros o now2; unfold handleGenerate; rewrite Hsubmit;
          reflexivity |].
  repeat split.
Qed.

Lemma settle_failure (cap : Captured) (o : FetchOutcome) (e : Thrown)
    (now : Z) (s : State) :
  awaitResult o = inl e ->
  handleGenerate_settle cap o now s
  = setIsGenerating false
      (setMessage (js "Failed to generate video. Please try again.")
         (setGenerationMeta
            (Some {| meta_provider := cap_provider cap;
                     meta_cost := None;
                     meta_startedAt := Some (cap_startedAt cap);
                     meta_completedAt := Some now;
                     meta_error :=
                       Some (match e with
                             | ThrownError msg => msg
                             | ThrownOther => js "Unknown error"
                             end) |}) s)).
Proof.
  intros H. unfold handleGenerate_settle. rewrite H. reflexivity.
Qed.

Lemma await_non_ok (status : Z) (body : Thrown + option GenerationResult) :
  ~ (200 <= status <= 299) ->
  awaitResult (FetchResponse status body)
  = inl (ThrownError (js "Failed to generate video")).
Proof.
  intros H. unfold awaitResult.
  destruct (response_ok status) eqn:E; [| reflexivity].
  apply response_ok_range in E. contradiction.
Qed.

Lemma await_ok (status : Z) (result : GenerationResult) :
  200 <= status <= 299 ->
  awaitResult (FetchResponse status (inr (Some result))) = inr result.
Proof.
  intros H. apply response_ok_range in H.
  unfold awaitResult. rewrite H. reflexivity.
Qed.

(** C7: whatever the status outside 200..299 and whatever the body,
    the handler ends with the generation metadata being exactly the
    provider id and start timestamp of this attempt, the completion
    timestamp and the error message, with the failure message shown
    and [isGenerating] false; the state reached is the same for any
    two such responses; and in a whole run from a form with a prompt,
    the metadata hold the form's provider and both clock readings,
    whatever metadata were there before. *)
Theorem non_ok_response_fails (cap : Captured) (status : Z)
    (body : Thrown + option GenerationResult) (now : Z) (s : State) :
  ~ (200 <= status <= 299) ->
  let s' := handleGenerate_settle cap (FetchResponse status body) now s in
  generationMeta s'
  = Some (failedMeta (cap_provider cap) (cap_startedAt cap) now)
  /\ isGenerating s' = false
  /\ message s' = js "Failed to generate video. Please try again."
  /\ (forall status2 body2,
        ~ (200 <= status2 <= 299) ->
        handleGenerate_settle cap (FetchResponse status2 body2) now s = s')
  /\ (forall now1,
        trim (prompt s) <> [] ->
        let run := handleGenerate now1 (FetchResponse status body) now s in
        generationMeta (fst run)
        = Some (failedMeta (provider s) now1 now)
        /\ isGenerating (fst run) = false
        /\ List.length (snd run) = 1%nat).
Proof.
  intros Hbad s'. subst s'.
  rewrite (settle_failure _ _ _ _ _ (await_non_ok status body Hbad)).
  split; [reflexivity |]. split; [reflexivity |].
  split; [reflexivity |]. split.
  - intros status2 body2 Hbad2.
    rewrite (settle_failure _ _ _ _ _ (await_non_ok status2 body2 Hbad2)).
    reflexivity.
  - intros now1 Hprompt run. subst run.
    unfold handleGenerate, handleGenerate_submit.
    destruct (truthy (trim (prompt s))) eqn:E;
      [| apply truthy_false in E; contradiction].
    cbn [negb fst snd].
    rewrite (settle_failure _ _ _ _ _ (await_non_ok status body Hbad)).
    repeat split.
Qed.

Lemma buildFormData_unfold (s : State) :
  buildFormData s
  = [ (js "prompt", FVString (prompt s));
      (js "negativePrompt", FVString (negativePrompt s));
      (js "numberOfVideos", FVString (numberToString (numberOfVideos s)));
      (js "aspectRatio", FVString (aspectRatio s));
      (js "durationSeconds",
       FVString (numberToString (durationSeconds s)));
      (js "provider", FVString (provider s)) ]
    ++ (if str_eqb (provider s) (js "veo-3")
        then [ (js "veo3Model", FVString (veo3Model s));
               (js "veo3Resolution", FVString (veo3Resolution s));
               (js "veo3Audio", FVString (boolToString (veo3Audio s))) ]
        else [])
    ++ (match conditioningImage s with
        | Some image => [ (js "conditioningImage", FVFile image) ]
        | None => []
        end).
Proof.
  unfold buildFormData, append.
  destruct (str_eqb (provider s) (js "veo-3")), (conditioningImage s);
    reflexivity.
Qed.

Lemma payloadKeys_unfold (s : State) :
  payloadKeys s
  = [ js "prompt"; js "negativePrompt"; js "numberOfVideos";
      js "aspectRatio"; js "durationSeconds"; js "provider" ]
    ++ (if str_eqb (provider s) (js "veo-3")
        then [ js "veo3Model"; js "veo3Resolution"; js "veo3Audio" ]
        else [])
    ++ (match conditioningImage s with
        | Some _ => [ js "conditioningImage" ]
        | None => []
        end).
Proof.
  unfold payloadKeys. rewrite buildFormData_unfold.
  destruct (str_eqb (provider s) (js "veo-3")), (conditioningImage s);
    reflexivity.
Qed.

(** C9: the payload is, in this order, the prompt, the negative
    prompt, the video count, the aspect ratio, the duration and the
    provider id, followed by the three veo-3 sub-options exactly when
    the provider is 'veo-3', followed by the conditioning image
    exactly when there is one; no entry is named after the generic
    resolution or frame rate selectors; and it is the body of the
    request that a submission sends. *)
Theorem payload_fields (now : Z) (s : State) :
  buildFormData s
  = [ (js "prompt", FVString (prompt s));
      (js "negativePrompt", FVString (negativePrompt s));
      (js "numberOfVideos", FVString (numberToString (numberOfVideos s)));
      (js "aspectRatio", FVString (aspectRatio s));
      (js "durationSeconds",
       FVString (numberToString (durationSeconds s)));
      (js "provider", FVString (provider s)) ]
    ++ (if str_eqb (provider s) (js "veo-3")
        then [ (js "veo3Model", FVString (veo3Model s));
               (js "veo3Resolution", FVString (veo3Resolution s));
               (js "veo3Audio", FVString (boolToString (veo3Audio s))) ]
        else [])
    ++ (match conditioningImage s with
        | Some image => [ (js "conditioningImage", FVFile image) ]
        | None => []
        end)
  /\ (In (js "veo3Model") (payloadKeys s) <-> provider s = js "veo-3")
  /\ (In (js "veo3Resolution") (payloadKeys s)
      <-> provider s = js "veo-3")
  /\ (In (js "veo3Audio") (payloadKeys s) <-> provider s = js "veo-3")
  /\ (In (js "conditioningImage") (payloadKeys s)
      <-> conditioningImage s <> None)
  /\ ~ In (js "resolution") (payloadKeys s)
  /\ ~ In (js "fps") (payloadKeys s)
  /\ match snd (handleGenerate_submit now s) with
     | Some (req, _) =>
         req = {| req_url := js "/api/generate-video";
                  req_method := js "POST";
                  req_body := buildFormData s |}
     | None => trim (prompt s) = []
     end.
Proof.
  split; [apply buildFormData_unfold |].
  rewrite payloadKeys_unfold.
  assert (str_eqb (provider s) (js "veo-3") = false
          -> provider s <> js "veo-3") as Hne.
  { intros E H. apply str_eqb_eq in H. congruence. }
  repeat (split; [| try split]);
    try solve
      [ destruct (str_eqb (provider s) (js "veo-3")) eqn:E;
        [apply str_eqb_eq in E | specialize (Hne eq_refl)];
        destruct (conditioningImage s);
        vm_compute; intuition (try discriminate; try congruence) ].
  unfold handleGenerate_submit.
  destruct (truthy (trim (prompt s))) eqn:E; cbn [negb snd].
  - reflexivity.
  - apply truthy_false; assumption.
Qed.

(** C10: for a response with a status in 200..299 whose body parses,
    the metadata record the reported cost as it is; when that cost is
    0 the message is the plain success message and the cost guard
    yields the number itself, not the 'Actual cost' line, so that the
    "Last generation" card holds no such line; and whenever
    the message is not the plain one, or the 'Actual cost' line is
    rendered, the reported cost is a number other than 0, formatted
    as currency in both. *)
Theorem zero_cost_display (cap : Captured) (status : Z)
    (result : GenerationResult) (now : Z) (s : State) :
  200 <= status <= 299 ->
  let s' :=
    handleGenerate_settle cap (FetchResponse status (inr (Some result)))
      now s in
  exists m,
    generationMeta s' = Some m
    /\ meta_cost m = res_cost result
    /\ meta_error m = None
    /\ (forall c, res_cost result = Some c -> (c == 0)%Q ->
        message s' = js "Video generated successfully!"
        /\ renderActualCost m = CostNumber c
        /\ renderLastGeneration (generationMeta s')
           = if now =? 0 then CardNumber now
             else Card false (CostNumber c))
    /\ (message s' <> js "Video generated successfully!"
        \/ (exists text, renderActualCost m = CostLine text) ->
        exists c,
          res_cost result = Some c /\ ~ (c == 0)%Q
          /\ message s'
             = js "Video generated successfully " ++ [8226%N] ++ js " "
               ++ formatCurrency c
          /\ renderActualCost m
             = CostLine (js "Actual cost: " ++ formatCurrency c)).
Proof.
  intros Hok s'. subst s'. unfold handleGenerate_settle.
  rewrite (await_ok status result Hok).
  eexists. split; [reflexivity |].
  split; [reflexivity |]. split; [reflexivity |].
  unfold renderLastGeneration, renderActualCost, successMessage.
  cbn [message generationMeta setIsGenerating setMessage setGenerationMeta
       meta_cost meta_completedAt meta_error].
  split.
  - intros c Hc Hzero. rewrite Hc.
    apply truthyQ_zero in Hzero. rewrite Hzero. repeat split.
  - destruct (res_cost result) as [c|].
    + destruct (truthyQ c) eqn:E.
      * intros _. exists c. split; [reflexivity |].
        split; [| split; reflexivity].
        intros Hzero. apply truthyQ_zero in Hzero. congruence.
      * intros [H | [text H]]; [congruence | discriminate].
    + intros [H | [text H]]; [congruence | discriminate].
Qed.

End WithRuntime.

Lemma empty_prompt_rejected_witness :
  trim (prompt blankPromptState) = []
  /\ handleGenerate_submit (RT := sampleRuntime) 5000 blankPromptState
     = (setMessage (js "Please enter a prompt before generating.")
          blankPromptState, None).
Proof.
  split; [reflexivity |].
  exact (proj1 (empty_prompt_rejected (RT := sampleRuntime) 5000
                  blankPromptState eq_refl)).
Defined.

Lemma non_ok_response_fails_witness :
  ~ (200 <= 503 <= 299)
  /\ generationMeta
       (handleGenerate_settle (RT := sampleRuntime)
          {| cap_provider := js "veo-3"; cap_startedAt := 5000 |}
          (FetchResponse 503 (inl ThrownOther)) 9000 sampleState)
     = Some (failedMeta (js "veo-3") 5000 9000).
Proof.
  assert (~ (200 <= 503 <= 299)) as H by lia.
  split; [exact H |].
  exact (proj1 (non_ok_response_fails (RT := sampleRuntime)
                  {| cap_provider := js "veo-3"; cap_startedAt := 5000 |}
                  503 (inl ThrownOther) 9000 sampleState H)).
Defined.

Lemma zero_cost_display_witness :
  200 <= 200 <= 299
  /\ exists m,
      generationMeta
        (handleGenerate_settle (RT := sampleRuntime)
           {| cap_provider := js "veo-3"; cap_startedAt := 5000 |}
           (FetchResponse 200
              (inr (Some {| res_videos := Some [js "a.mp4"];
                      res_provider := None; res_cost := Some 0%Q |})))
           9000 sampleState) = Some m
      /\ meta_cost m = Some 0%Q.
Proof.
  assert (200 <= 200 <= 299) as H by lia.
  split; [exact H |].
  destruct (zero_cost_display (RT := sampleRuntime)
              {| cap_provider := js "veo-3"; cap_startedAt := 5000 |}
              200
              {| res_videos := Some [js "a.mp4"];
                 res_provider := None; res_cost := Some 0%Q |}
              9000 sampleState H) as (m & Hm & Hcost & _).
  exists m. split; [exact Hm | exact Hcost].
Defined.

(** The spec's scenario: two videos at a cost of 1.50. *)
Example success_scenario :
  let s' :=
    handleGenerate_settle (RT := sampleRuntime)
      {| cap_provider := js "veo-3"; cap_startedAt := 5000 |}
      (FetchResponse 200
         (inr (Some {| res_videos := Some [js "a.mp4"; js "b.mp4"];
                 res_provider := None; res_cost := Some (3 # 2) |})))
      9000 sampleState in
  videos s' = [js "a.mp4"; js "b.mp4"]
  /\ message s'
     = js "Video generated successfully " ++ [8226%N] ++ js " $1.50"
  /\ option_map meta_cost (generationMeta s') = Some (Some (3 # 2))
  /\ isGenerating s' = false.
Proof. vm_compute. repeat split. Qed.

(** A cost of 0: recorded, but neither message nor card shows an
    amount. *)
Example zero_cost_scenario :
  let s' :=
    handleGenerate_settle (RT := sampleRuntime)
      {| cap_provider := js "veo-3"; cap_startedAt := 5000 |}
      (FetchResponse 200
         (inr (Some {| res_videos := Some [js "a.mp4"];
                 res_provider := None; res_cost := Some 0%Q |})))
      9000 sampleState in
  message s' = js "Video generated successfully!"
  /\ option_map meta_cost (generationMeta s') = Some (Some 0%Q)
  /\ option_map (renderActualCost (RT := sampleRuntime)) (generationMeta s')
     = Some (CostNumber 0).
Proof. vm_compute. repeat split. Qed.

(** A submission from the sample form sends nine entries and one
    file. *)
Example payload_sample :
  payloadKeys (RT := sampleRuntime) sampleState
  = [ js "prompt"; js "negativePrompt"; js "numberOfVideos";
      js "aspectRatio"; js "durationSeconds"; js "provider";
      js "veo3Model"; js "veo3Resolution"; js "veo3Audio";
      js "conditioningImage" ].
Proof. reflexivity. Qed.

End OrchestratorFacts.

(* ================================================================== *)
(** ** Route protection *)
(* ================================================================== *)

Module ProxyFacts.
Import Proxy.

Lemma startsWith_prefix (s p : jsstring) :
  startsWith s p = true <-> exists rest, s = p ++ rest.
Proof.
  revert s; induction p as [|x p IH]; intros s; simpl.
  - split; [intros _; exists s; reflexivity | reflexivity].
  - destruct s as [|c s].
    + split; [discriminate | intros [rest H]; discriminate].
    + rewrite andb_true_iff, N.eqb_eq, IH. split.
      * intros [-> [rest ->]]. exists rest; reflexivity.
      * intros [rest H]. inversion H; subst. split; eauto.
Qed.

Lemma publicPath_test (pathname : jsstring) :
  startsWith pathname (js "/auth/")
  || str_eqb pathname (js "/")
  || startsWith pathname (js "/api/auth/") = true
  <-> publicPath pathname.
Proof.
  unfold publicPath.
  rewrite !orb_true_iff, !startsWith_prefix, str_eqb_eq. tauto.
Qed.

Lemma isLoggedIn_user (session : option Session) :
  isLoggedIn session = true
  <-> exists u, session = Some {| user := Some u |}.
Proof.
  destruct session as [[[u|]]|]; simpl; split;
    try discriminate; try (intros [u' H]; discriminate).
  - intros _. exists u; reflexivity.
  - reflexivity.
Qed.

Example proxy_root_anonymous : proxy None (js "/") = next.
Proof. reflexivity. Qed.

Example proxy_signin_anonymous : proxy None (js "/auth/signin") = next.
Proof. reflexivity. Qed.

Example proxy_generate_anonymous :
  proxy None (js "/api/generate-video") = redirect (js "/auth/signin").
Proof. reflexivity. Qed.

Example proxy_generate_logged_in :
  proxy (Some {| user := Some {| user_id := js "u1" |} |})
        (js "/api/generate-video") = next.
Proof. reflexivity. Qed.

(** A session without a user does not count as logged in. *)
Example proxy_dashboard_no_user :
  proxy (Some {| user := None |}) (js "/dashboard")
  = redirect (js "/auth/signin").
Proof. reflexivity. Qed.

(** C8: a request whose path is the root, or starts with '/auth/' or
    with '/api/auth/', passes through whatever the session; any other
    request is redirected to '/auth/signin' when it has no logged-in
    session and passes through when it has one. *)
Theorem proxy_decision (session : option Session) (pathname : jsstring) :
  (publicPath pathname -> proxy session pathname = next)
  /\ (~ publicPath pathname -> isLoggedIn session = false ->
      proxy session pathname = redirect (js "/auth/signin"))
  /\ (~ publicPath pathname -> isLoggedIn session = true ->
      proxy session pathname = next).
Proof.
  unfold proxy.
  destruct (startsWith pathname (js "/auth/")
            || str_eqb pathname (js "/")
            || startsWith pathname (js "/api/auth/")) eqn:E.
  - apply publicPath_test in E.
    split; [reflexivity | split; intros H; contradiction].
  - assert (~ publicPath pathname) as Hnot.
    { intros H. apply publicPath_test in H. congruence. }
    split; [intros H; contradiction |].
    split; intros _ Hlog; rewrite Hlog; cbn [negb];
      destruct (startsWith pathname (js "/api/generate-video"));
      reflexivity.
Qed.

End ProxyFacts.

(* ================================================================== *)
(** ** Prompt validation and the word count *)
(* ================================================================== *)

Module ValidationFacts.
Import Prompt Orchestrator.

Lemma trimStart_nil (s : jsstring) :
  trimStart s = [] <-> forallb is_white_space s = true.
Proof.
  induction s as [|c r IH]; simpl; [tauto |].
  destruct (is_white_space c); simpl; [exact IH |].
  split; discriminate.
Qed.

Lemma trimStart_suffix (s : jsstring) :
  trimStart s = []
  \/ exists c r, trimStart s = c :: r /\ is_white_space c = false.
Proof.
  induction s as [|c r IH]; simpl; [left; reflexivity |].
  destruct (is_white_space c) eqn:E; [exact IH |].
  right. exists c, r. split; [reflexivity | exact E].
Qed.

Lemma trim_nil (s : jsstring) :
  trim s = [] <-> forallb is_white_space s = true.
Proof.
  rewrite <- trimStart_nil. unfold trim, trimEnd. split.
  - intros H. destruct (trimStart_suffix s) as [E | (c & r & E & Hc)];
      [exact E |].
    rewrite E in H. apply (f_equal (@rev N)) in H.
    rewrite rev_involutive in H. simpl in H.
    apply trimStart_nil in H. rewrite forallb_app in H. simpl in H.
    rewrite Hc, andb_false_r in H. discriminate.
  - intros ->. reflexivity.
Qed.

Lemma spec_words_zero (s : jsstring) :
  spec_words s = 0%nat <-> forallb is_white_space s = true.
Proof.
  unfold spec_words. induction s as [|c r IH]; simpl; [tauto |].
  destruct (is_white_space c); simpl; [exact IH |].
  split; discriminate.
Qed.

Lemma spec_words_app_le (p q : jsstring) (b : bool) :
  (spec_words_from b p <= spec_words_from b (p ++ q))%nat.
Proof.
  revert b. induction p as [|c r IH]; intros b; simpl; [lia |].
  destruct (is_white_space c); [apply IH |].
  specialize (IH false). lia.
Qed.

Lemma spec_words_app_space (a b : jsstring) (c : N) (f : bool) :
  is_white_space c = true ->
  spec_words_from f (a ++ c :: b)
  = (spec_words_from f a + spec_words_from true b)%nat.
Proof.
  intros Hc. revert f. induction a as [|x r IH]; intros f; simpl.
  - rewrite Hc. reflexivity.
  - destruct (is_white_space x); rewrite IH; lia.
Qed.

Lemma score_monotone (w w' : nat) :
  (w <= w')%nat ->
  (score (insightsOfWords w) <= score (insightsOfWords w'))%nat.
Proof.
  intros Hle.
  destruct (PromptFacts.score_cases w) as [H|[H|[H|H]]],
           (PromptFacts.score_cases w') as [H'|[H'|[H'|H']]]; lia.
Qed.

Section WithRuntime.
Context {RT : Runtime}.

(** X1: the handler refuses to submit exactly when the prompt consists
    of whitespace only, which is exactly when the heuristic counts 0
    words and shows its lowest tier. *)
Theorem rejected_iff_no_words (now : Z) (s : State) :
  (snd (handleGenerate_submit now s) = None
   <-> forallb is_white_space (prompt s) = true)
  /\ (snd (handleGenerate_submit now s) = None
      <-> words (promptInsights (prompt s)) = 0%nat)
  /\ (snd (handleGenerate_submit now s) = None
      <-> score (promptInsights (prompt s)) = 0%nat).
Proof.
  assert (snd (handleGenerate_submit now s) = None
          <-> forallb is_white_space (prompt s) = true) as Hblank.
  { rewrite <- trim_nil. unfold handleGenerate_submit.
    destruct (trim (prompt s)); simpl; split; congruence. }
  assert (words (promptInsights (prompt s)) = 0%nat
          <-> forallb is_white_space (prompt s) = true) as Hwords.
  { unfold promptInsights.
    rewrite PromptFacts.words_insights, PromptFacts.countWords_spec.
    apply spec_words_zero. }
  split; [exact Hblank |]. split; [tauto |].
  rewrite Hblank, <- Hwords. unfold promptInsights.
  rewrite PromptFacts.words_insights.
  destruct (PromptFacts.score_cases (countWords (prompt s)))
    as [H|[H|[H|H]]]; lia.
Qed.

End WithRuntime.

(** X2: text appended to a prompt never lowers its word count nor its
    tier. *)
Theorem append_keeps_tier (p q : jsstring) :
  (words (promptInsights p) <= words (promptInsights (p ++ q)))%nat
  /\ (score (promptInsights p) <= score (promptInsights (p ++ q)))%nat.
Proof.
  unfold promptInsights. rewrite !PromptFacts.words_insights.
  assert (countWords p <= countWords (p ++ q))%nat as Hle.
  { rewrite !PromptFacts.countWords_spec. apply spec_words_app_le. }
  split; [exact Hle | apply score_monotone, Hle].
Qed.

(** X3: the word count of two texts joined by a whitespace code unit is
    the sum of their word counts. *)
Theorem countWords_joined (a b : jsstring) (c : N) :
  is_white_space c = true ->
  countWords (a ++ c :: b) = (countWords a + countWords b)%nat.
Proof.
  intros Hc. rewrite !PromptFacts.countWords_spec.
  apply spec_words_app_space, Hc.
Qed.

Lemma countWords_joined_witness :
  is_white_space 32 = true
  /\ countWords (js "a cat" ++ 32%N :: js "on a skateboard")
     = (countWords (js "a cat") + countWords (js "on a skateboard"))%nat.
Proof.
  split; [reflexivity |].
  exact (countWords_joined (js "a cat") (js "on a skateboard") 32 eq_refl).
Defined.

End ValidationFacts.

(* ================================================================== *)
(** ** Outcomes of a generation request *)
(* ================================================================== *)

Module OutcomeFacts.
Import Form Widgets Orchestrator Samples.

Lemma startsWith_app_l (a b p : jsstring) :
  startsWith a p = true -> startsWith (a ++ b) p = true.
Proof.
  revert a. induction p as [|x p IH]; intros a; simpl; [reflexivity |].
  destruct a as [|c a]; simpl; [discriminate |].
  rewrite !andb_true_iff. intros [H1 H2]. split; [exact H1 | apply IH, H2].
Qed.

Lemma str_includes_app_l (a b sub : jsstring) :
  str_includes a sub = true -> str_includes (a ++ b) sub = true.
Proof.
  induction a as [|c a IH]; simpl.
  - rewrite orb_false_r. intros H. destruct sub; [| discriminate].
    destruct b; reflexivity.
  - rewrite !orb_true_iff. intros [H | H].
    + left. apply (startsWith_app_l (c :: a) b sub H).
    + right. apply IH, H.
Qed.

Lemma success_response {RT : Runtime} (o : FetchOutcome)
    (r : GenerationResult) :
  awaitResult o = inr r
  <-> exists status,
      o = FetchResponse status (inr (Some r)) /\ 200 <= status <= 299.
Proof.
  split.
  - destruct o as [e | status body]; simpl; [discriminate |].
    destruct (response_ok status) eqn:E; simpl; [| discriminate].
    destruct body as [e | [result |]]; try discriminate.
    intros H. inversion H; subst. exists status. split; [reflexivity |].
    apply OrchestratorFacts.response_ok_range, E.
  - intros (status & -> & Hok). simpl.
    apply OrchestratorFacts.response_ok_range in Hok. rewrite Hok.
    reflexivity.
Qed.

Section WithRuntime.
Context {RT : Runtime}.

Lemma settle_sameForm (cap : Captured) (o : FetchOutcome) (now : Z)
    (s : State) :
  sameForm (handleGenerate_settle cap o now s) s.
Proof.
  unfold handleGenerate_settle, sameForm.
  destruct (awaitResult o); repeat split.
Qed.

Lemma submit_sameForm (now : Z) (s : State) :
  sameForm (fst (handleGenerate_submit now s)) s.
Proof.
  unfold handleGenerate_submit, sameForm.
  destruct (truthy (trim (prompt s))); repeat split.
Qed.

(** X4: whatever the outcome of the request (fetch rejected, status
    outside 200..299, body that does not parse, body that parses to
    null, or success), the handler ends with [isGenerating] false and
    metadata that hold the start timestamp of the attempt and the
    completion timestamp; the metadata carry an error exactly when the
    outcome is not a response with a status in 200..299 and a body that
    parses to a value other than null; on such a failure they carry no
    cost and the videos are left as they were; and the cells of the
    form are never touched. *)
Theorem settle_always_completes (cap : Captured) (o : FetchOutcome)
    (now : Z) (s : State) :
  let s' := handleGenerate_settle cap o now s in
  isGenerating s' = false
  /\ (exists m,
        generationMeta s' = Some m
        /\ meta_startedAt m = Some (cap_startedAt cap)
        /\ meta_completedAt m = Some now
        /\ (meta_error m = None
            <-> exists status r,
                o = FetchResponse status (inr (Some r))
                /\ 200 <= status <= 299)
        /\ (meta_error m <> None ->
            meta_provider m = cap_provider cap /\ meta_cost m = None
            /\ videos s' = videos s))
  /\ sameForm s' s.
Proof.
  intros s'. subst s'.
  split; [reflexivity |]. split; [| apply settle_sameForm].
  unfold handleGenerate_settle.
  destruct (awaitResult o) as [e | r] eqn:E.
  - eexists. split; [reflexivity |]. cbn [meta_startedAt meta_completedAt
      meta_error meta_provider meta_cost].
    split; [reflexivity |]. split; [reflexivity |]. split.
    + split; [discriminate |].
      intros (status & r & Ho & Hok).
      assert (awaitResult o = inr r) as E'
        by (apply success_response; eauto).
      congruence.
    + intros _. repeat split.
  - eexists. split; [reflexivity |]. cbn [meta_startedAt meta_completedAt
      meta_error meta_provider meta_cost].
    split; [reflexivity |]. split; [reflexivity |]. split.
    + split; [intros _ | reflexivity].
      apply success_response in E. destruct E as (status & Ho & Hok).
      eauto.
    + intros H. congruence.
Qed.

(** X5: a run of the handler on a prompt that is not blank sends
    exactly one request, a POST to /api/generate-video whose body is the
    payload of the form; afterwards the videos are those of the response
    when it succeeded and none otherwise, so that videos shown before
    the run never remain; [isGenerating] is false and the form is as it
    was. *)
Theorem run_sends_one_request (now1 : Z) (o : FetchOutcome) (now2 : Z)
    (s : State) :
  trim (prompt s) <> [] ->
  let run := handleGenerate now1 o now2 s in
  snd run = [ {| req_url := js "/api/generate-video";
                 req_method := js "POST";
                 req_body := buildFormData s |} ]
  /\ videos (fst run)
     = match awaitResult o with
       | inr r => match res_videos r with Some vs => vs | None => [] end
       | inl _ => []
       end
  /\ isGenerating (fst run) = false
  /\ sameForm (fst run) s.
Proof.
  intros Hprompt run. subst run.
  unfold handleGenerate, handleGenerate_submit.
  destruct (truthy (trim (prompt s))) eqn:E;
    [| apply OrchestratorFacts.truthy_false in E; contradiction].
  cbn [negb fst snd].
  split; [reflexivity |].
  split; [| split; [reflexivity |]].
  - unfold handleGenerate_settle. destruct (awaitResult o); reflexivity.
  - unfold handleGenerate_settle, sameForm.
    destruct (awaitResult o); repeat split.
Qed.

Lemma truthy_app_l (a b : jsstring) :
  truthy a = true -> truthy (a ++ b) = true.
Proof. destruct a; [discriminate | reflexivity]. Qed.

(** X6: the status banner is green exactly after a successful
    generation, whatever the formatted cost in the message, red after
    a failed one and after a rejected blank prompt, and blue while a
    request is in flight. *)
Theorem banner_follows_outcome :
  (forall cap o now s,
      bannerClass (message (handleGenerate_settle cap o now s))
      = Some (match awaitResult o with
              | inr _ => bannerGreen
              | inl _ => bannerRed
              end))
  /\ (forall now s,
        bannerClass (message (fst (handleGenerate_submit now s)))
        = Some (if truthy (trim (prompt s)) then bannerBlue
                else bannerRed)).
Proof.
  split.
  - intros cap o now s. unfold handleGenerate_settle.
    destruct (awaitResult o) as [e | r]; [reflexivity |].
    cbn [message setIsGenerating setMessage]. unfold successMessage.
    destruct (res_cost r) as [c|]; [| reflexivity].
    destruct (truthyQ c); [| reflexivity].
    unfold bannerClass.
    rewrite truthy_app_l by reflexivity.
    rewrite str_includes_app_l by reflexivity. reflexivity.
  - intros now s. unfold handleGenerate_submit.
    destruct (truthy (trim (prompt s))); reflexivity.
Qed.

(** X7: after a request completes, with clock readings other than 0,
    the "Last generation" duration is defined and at least 1 second;
    from half a second of elapsed time on it is the elapsed time rounded
    to the nearest second. *)
Theorem duration_after_settle (cap : Captured) (o : FetchOutcome)
    (now : Z) (s : State) :
  cap_startedAt cap <> 0 -> now <> 0 ->
  exists d,
    lastGenerationDuration
      (generationMeta (handleGenerate_settle cap o now s)) = Some d
    /\ 1 <= d
    /\ (now - cap_startedAt cap < 1500 -> d = 1)
    /\ (500 <= now - cap_startedAt cap ->
        1000 * d - 500 <= now - cap_startedAt cap < 1000 * d + 500).
Proof.
  intros Hstart Hnow.
  assert (lastGenerationDuration
            (generationMeta (handleGenerate_settle cap o now s))
          = Some (Z.max 1 ((now - cap_startedAt cap + 500) / 1000))) as E.
  { unfold handleGenerate_settle, lastGenerationDuration.
    destruct (awaitResult o);
      cbn [generationMeta setIsGenerating setMessage setGenerationMeta
           meta_startedAt meta_completedAt];
      destruct (Z.eqb_spec (cap_startedAt cap) 0); try contradiction;
      destruct (Z.eqb_spec now 0); try contradiction; reflexivity. }
  eexists. split; [exact E |].
  pose proof (Z.div_mod (now - cap_startedAt cap + 500) 1000 ltac:(lia)).
  pose proof (Z.mod_pos_bound (now - cap_startedAt cap + 500) 1000
                ltac:(lia)).
  split; [lia |]. split; lia.
Qed.


End WithRuntime.

Lemma run_sends_one_request_witness :
  trim (prompt sampleState) <> []
  /\ List.length
       (snd (handleGenerate (RT := sampleRuntime) 5000
               (FetchRejected ThrownOther) 9000 sampleState)) = 1%nat.
Proof.
  assert (trim (prompt sampleState) <> []) as H by (vm_compute; discriminate).
  split; [exact H |].
  exact (f_equal (@List.length Request)
           (proj1 (run_sends_one_request (RT := sampleRuntime) 5000
                     (FetchRejected ThrownOther) 9000 sampleState H))).
Defined.

Lemma duration_after_settle_witness :
  5000 <> 0 /\ 9400 <> 0
  /\ exists d,
      lastGenerationDuration
        (generationMeta
           (handleGenerate_settle (RT := sampleRuntime)
              {| cap_provider := js "veo-3"; cap_startedAt := 5000 |}
              (FetchRejected ThrownOther) 9400 sampleState)) = Some d
      /\ 1 <= d.
Proof.
  assert (5000 <> 0) as H1 by lia. assert (9400 <> 0) as H2 by lia.
  split; [exact H1 |]. split; [exact H2 |].
  destruct (duration_after_settle (RT := sampleRuntime)
              {| cap_provider := js "veo-3"; cap_startedAt := 5000 |}
              (FetchRejected ThrownOther) 9400 sampleState H1 H2)
    as (d & Hd & Hle & _).
  exists d. split; [exact Hd | exact Hle].
Defined.


(** A response with status 200 whose body is the JSON text [null]:
    [json()] resolves, reading [result.videos] throws, and the attempt
    is recorded as failed with the engine's message. *)
Example null_body_fails :
  let s' :=
    handleGenerate_settle (RT := sampleRuntime)
      {| cap_provider := js "veo-3"; cap_startedAt := 5000 |}
      (FetchResponse 200 (inr None)) 9000 sampleState in
  option_map meta_error (generationMeta s')
  = Some (Some (js "Cannot read properties of null (reading 'videos')"))
  /\ message s' = js "Failed to generate video. Please try again."
  /\ videos s' = videos sampleState
  /\ isGenerating s' = false.
Proof. vm_compute. repeat split. Qed.

Example duration_rounds_to_nearest :
  lastGenerationDuration
    (Some {| meta_provider := js "veo-3"; meta_cost := None;
             meta_startedAt := Some 1000; meta_completedAt := Some 3500;
             meta_error := None |}) = Some 3.
Proof. reflexivity. Qed.

End OutcomeFacts.

(* ================================================================== *)
(** ** Readiness checklist *)
(* ================================================================== *)

Module ChecklistFacts.
Import Prompt Reconciler Widgets.

Section WithRuntime.
Context {RT : Runtime}.

Lemma clarity_ready (p : jsstring) :
  item_ready (promptClarityItem (score (promptInsights p))) = true
  <-> (12 <= countWords p)%nat.
Proof.
  unfold promptInsights. cbn [item_ready promptClarityItem].
  rewrite Nat.leb_le.
  destruct (PromptFacts.score_cases (countWords p)) as [H|[H|[H|H]]]; lia.
Qed.

Lemma image_ready_reconciled (P : VideoProvider) (s : State) :
  item_ready (referenceImageItem (Some P) (conditioningImage (reconcile P s)))
  = true
  <-> (supportsConditioningImage (capabilities P) = true ->
       conditioningImage s <> None).
Proof.
  rewrite ReconcilerFacts.reconcile_conditioningImage.
  unfold reconcileConditioningImage. cbn [item_ready referenceImageItem].
  destruct (supportsConditioningImage (capabilities P)); cbn [negb orb].
  - destruct (conditioningImage s); split; try congruence.
    intros H. exfalso. apply H; reflexivity.
  - split; [discriminate | reflexivity].
Qed.

Lemma batch_ready_reconciled (P : VideoProvider) (s : State) :
  item_ready (batchSizeItem (Some P) (numberOfVideos (reconcile P s))) = true
  <-> ~ (supportsMultipleVideos (capabilities P) = true
         /\ maxVideos (capabilities P) = Some 0).
Proof.
  rewrite ReconcilerFacts.reconcile_numberOfVideos.
  unfold reconcileNumberOfVideos. cbn [item_ready batchSizeItem].
  destruct (supportsMultipleVideos (capabilities P)); cbn [negb orb].
  - rewrite Z.leb_le.
    destruct (maxVideos (capabilities P)) as [m|]; cbn [num_or num_nullish].
    + destruct (Z.eqb_spec m 0) as [-> | Hm].
      * split; [lia | intros H; exfalso; apply H; split; reflexivity].
      * split; [intros _ [_ H]; congruence | lia].
    + split; [intros _ [_ H]; discriminate | lia].
  - split; [intros _ [H _]; discriminate | reflexivity].
Qed.

(** X9: right after reconciliation against the selected provider, all
    four items of the readiness checklist are ready exactly when the
    prompt has at least 12 words, a reference image is attached if the
    provider supports one, and the provider is not one that supports
    multiple videos with a declared limit of 0: for such a provider the
    count is reconciled to 1 (limit [maxVideos || 1]) but checked
    against 0 (limit [maxVideos ?? 1]). *)
Theorem checklist_after_reconcile (P : VideoProvider) (s : State) :
  let s' := reconcile P s in
  forallb item_ready
    (readinessChecklist (score (promptInsights (prompt s'))) (Some P)
       (conditioningImage s') (numberOfVideos s')) = true
  <-> (12 <= countWords (prompt s))%nat
      /\ (supportsConditioningImage (capabilities P) = true ->
          conditioningImage s <> None)
      /\ ~ (supportsMultipleVideos (capabilities P) = true
            /\ maxVideos (capabilities P) = Some 0).
Proof.
  intros s'. subst s'. unfold readinessChecklist. cbn [forallb].
  rewrite andb_true_r, !andb_true_iff.
  rewrite clarity_ready, image_ready_reconciled, batch_ready_reconciled.
  cbn [item_ready providerLimitsItem].
  change (prompt (reconcile P s)) with (prompt s). tauto.
Qed.

End WithRuntime.

End ChecklistFacts.

(* ================================================================== *)
(** ** Redirects of the route middleware *)
(* ================================================================== *)

Module RedirectFacts.
Import Proxy.

(** X10: whenever the middleware redirects, the request has no
    logged-in session and the target is '/auth/signin', a path the
    middleware lets through for every session: a redirect is never
    answered by another redirect. *)
Theorem redirect_target_passes (session : option Session)
    (pathname target : jsstring) :
  proxy session pathname = redirect target ->
  target = js "/auth/signin"
  /\ isLoggedIn session = false
  /\ (forall session', proxy session' target = next).
Proof.
  unfold proxy.
  destruct (startsWith pathname (js "/auth/")
            || str_eqb pathname (js "/")
            || startsWith pathname (js "/api/auth/")); [discriminate |].
  destruct (isLoggedIn session); cbn [negb].
  - destruct (startsWith pathname (js "/api/generate-video")); discriminate.
  - intros H.
    assert (target = js "/auth/signin") as ->
      by (destruct (startsWith pathname (js "/api/generate-video"));
          congruence).
    split; [reflexivity |]. split; [reflexivity |].
    intros session'. reflexivity.
Qed.

Lemma redirect_target_passes_witness :
  proxy None (js "/dashboard") = redirect (js "/auth/signin")
  /\ isLoggedIn None = false.
Proof.
  split; [reflexivity |].
  exact (proj1 (proj2 (redirect_target_passes None (js "/dashboard")
                         (js "/auth/signin") eq_refl))).
Defined.

End RedirectFacts.

(* ================================================================== *)
(** ** Invariants of the mounted component *)
(* ================================================================== *)

Module StudioFacts.
Import Form Reconciler Orchestrator Bounds Cost Studio.
Import Samples StudioSamples.

Lemma find_listed (l : list VideoProvider) (pid : jsstring) :
  includes_str (map id l) pid = true ->
  exists P, find (fun p => str_eqb (id p) pid) l = Some P.
Proof.
  induction l as [|p l IH]; simpl; [discriminate |].
  destruct (str_eqb (id p) pid) eqn:E; [eauto |].
  destruct (str_eqb pid (id p)) eqn:E'.
  - apply str_eqb_eq in E'. subst. rewrite str_eqb_refl in E. discriminate.
  - exact IH.
Qed.

Lemma nth_error_singleton {A} (x y : A) (i : nat) :
  nth_error [x] i = Some y -> i = 0%nat /\ y = x.
Proof.
  destruct i as [|[|i]]; simpl; try discriminate.
  intros E; inversion E; auto.
Qed.

Section WithCatalog.
Context {RT : Runtime}.
Variable providers : list VideoProvider.

Lemma selectedProvider_ext (s t : State) :
  provider s = provider t ->
  selectedProvider providers s = selectedProvider providers t.
Proof. unfold selectedProvider. intros ->. reflexivity. Qed.

Lemma selectedProvider_In (s : State) (P : VideoProvider) :
  selectedProvider providers s = Some P ->
  In P providers /\ id P = provider s.
Proof.
  unfold selectedProvider. intros H. apply find_some in H.
  destruct H as [Hin E]. apply str_eqb_eq in E. auto.
Qed.

Lemma run_invariant (Inv : System -> Prop) :
  (forall sys e, Inv sys -> enabled providers sys e = true ->
                 Inv (handle providers e sys)) ->
  forall events sys sys',
    Inv sys -> run providers events sys = Some sys' -> Inv sys'.
Proof.
  intros Hstep. induction events as [|e rest IH]; intros sys sys' Hinv; simpl.
  - intros E; inversion E; subst; exact Hinv.
  - destruct (enabled providers sys e) eqn:En; [| discriminate].
    apply IH. apply Hstep; assumption.
Qed.

(** *** What an event leaves alone *)

Lemma generate_ui (now : Z) (sys : System) :
  ui (handle providers (Generate now) sys)
  = fst (handleGenerate_submit now (ui sys)).
Proof.
  cbn [handle].
  destruct (handleGenerate_submit now (ui sys)) as [s1 [[req cap]|]];
    reflexivity.
Qed.

Lemma effect_frame (s : State) :
  provider (reconciliationEffect providers s) = provider s
  /\ prompt (reconciliationEffect providers s) = prompt s
  /\ isGenerating (reconciliationEffect providers s) = isGenerating s
  /\ generationMeta (reconciliationEffect providers s) = generationMeta s
  /\ videos (reconciliationEffect providers s) = videos s.
Proof.
  unfold reconciliationEffect.
  destruct (selectedProvider providers s); repeat split.
Qed.

(** *** Capability gating *)

Lemma gated_same (s u : State) :
  provider u = provider s ->
  negativePrompt u = negativePrompt s ->
  conditioningImage u = conditioningImage s ->
  numberOfVideos u = numberOfVideos s ->
  aspectRatio u = aspectRatio s ->
  gated providers s -> gated providers u.
Proof.
  unfold gated. intros Hp Hn Hi Hc Ha.
  rewrite (selectedProvider_ext u s Hp), Hn, Hi, Hc, Ha. auto.
Qed.

Lemma reconcile_gated (P : VideoProvider) (s : State) :
  selectedProvider providers s = Some P ->
  gated providers (reconcile P s).
Proof.
  intros H. unfold gated.
  rewrite (selectedProvider_ext (reconcile P s) s eq_refl), H.
  rewrite ReconcilerFacts.reconcile_negativePrompt,
    ReconcilerFacts.reconcile_conditioningImage,
    ReconcilerFacts.reconcile_numberOfVideos,
    ReconcilerFacts.reconcile_aspectRatio.
  unfold reconcileNegativePrompt, reconcileConditioningImage.
  repeat split.
  - intros ->. reflexivity.
  - intros ->. reflexivity.
  - apply ReconcilerFacts.count_single.
  - apply ReconcilerFacts.aspect_supported.
Qed.

Lemma effect_gated (s : State) :
  (selectedProvider providers s = None ->
   providers = [] /\ negativePrompt s = []
   /\ conditioningImage s = None /\ numberOfVideos s = 1) ->
  gated providers (reconciliationEffect providers s).
Proof.
  intros Hnone. unfold reconciliationEffect.
  destruct (selectedProvider providers s) as [P|] eqn:E.
  - apply reconcile_gated, E.
  - unfold gated. rewrite E. apply Hnone; reflexivity.
Qed.

Lemma mount_gated : gated providers (ui (mount providers)).
Proof.
  cbn [ui mount]. apply effect_gated.
  unfold selectedProvider, initialState. cbn [provider].
  destruct providers as [|p l]; [intros _; repeat split |].
  cbn [find]. rewrite str_eqb_refl. discriminate.
Qed.

Lemma choose_gated (pid : jsstring) (s : State) :
  includes_str (map id providers) pid = true ->
  gated providers (reconciliationEffect providers (setProvider pid s)).
Proof.
  intros Hin. apply effect_gated.
  unfold selectedProvider. cbn [provider setProvider].
  destruct (find_listed providers pid Hin) as [P ->]. discriminate.
Qed.

Ltac gated_edit s :=
  unfold gated, selectedHas in *;
  match goal with
  | |- context [selectedProvider providers ?u] =>
      change (selectedProvider providers u)
        with (selectedProvider providers s)
  end;
  destruct (selectedProvider providers s) as [P|]; [| congruence];
  cbn [negativePrompt conditioningImage numberOfVideos aspectRatio
       setNegativePrompt setConditioningImage setNumberOfVideos
       setAspectRatio onNumberOfVideosChange];
  intuition congruence.

Lemma handle_gated (sys : System) (e : Event) :
  gated providers (ui sys) -> enabled providers sys e = true ->
  gated providers (ui (handle providers e sys)).
Proof.
  destruct sys as [s pend]. cbn [ui]. intros Hg En.
  destruct e; cbn [enabled ui pending] in En;
    try (cbn [handle with_ui ui pending];
         solve [ apply (gated_same s); [reflexivity .. | exact Hg] ]).
  - (* negative prompt *)
    cbn [handle with_ui ui pending]. gated_edit s.
  - (* provider *)
    cbn [handle ui pending].
    destruct (str_eqb pid (provider s)); [exact Hg |].
    cbn [with_ui ui]. apply choose_gated, En.
  - (* number of videos *)
    cbn [handle with_ui ui pending]. gated_edit s.
  - (* aspect ratio *)
    cbn [handle with_ui ui pending].
    unfold gated in *.
    change (selectedProvider providers (setAspectRatio (fun _ => v) s))
      with (selectedProvider providers s).
    destruct (selectedProvider providers s) as [P|]; [| congruence].
    apply includes_str_In in En.
    cbn [negativePrompt conditioningImage numberOfVideos aspectRatio
         setAspectRatio].
    intuition.
  - (* image picked *)
    cbn [handle with_ui ui pending].
    destruct file as [f|]; cbn [handleImageChange]; [| exact Hg].
    gated_edit s.
  - (* image removed *)
    apply andb_true_iff in En. destruct En as [En _].
    cbn [handle with_ui ui pending]. gated_edit s.
  - (* generate *)
    rewrite generate_ui. cbn [ui].
    destruct (OutcomeFacts.submit_sameForm now s)
      as (H1 & _ & H3 & H4 & H5 & _ & H7 & _).
    apply (gated_same s); assumption.
  - (* settle *)
    cbn [handle ui pending].
    destruct (nth_error pend i) as [cap|]; [| exact Hg].
    cbn [ui].
    destruct (OutcomeFacts.settle_sameForm cap o now s)
      as (H1 & _ & H3 & H4 & H5 & _ & H7 & _).
    apply (gated_same s); assumption.
Qed.

Lemma reachable_gated (events : list Event) (sys : System) :
  run providers events (mount providers) = Some sys ->
  gated providers (ui sys).
Proof.
  apply (run_invariant (fun sys => gated providers (ui sys))).
  - apply handle_gated.
  - apply mount_gated.
Qed.

(** *** One request at a time *)

Lemma mount_flight : singleFlight (mount providers).
Proof.
  left. split; [reflexivity |].
  cbn [ui mount]. destruct (effect_frame (initialState providers))
    as (_ & _ & H & _). rewrite H. reflexivity.
Qed.

Lemma handle_flight (sys : System) (e : Event) :
  singleFlight sys -> enabled providers sys e = true ->
  singleFlight (handle providers e sys).
Proof.
  destruct sys as [s pend]. unfold singleFlight. cbn [ui pending].
  intros Hf En.
  destruct e; cbn [enabled ui pending] in En;
    try (cbn [handle with_ui ui pending]; exact Hf).
  - (* provider *)
    cbn [handle ui pending].
    destruct (str_eqb pid (provider s)); [exact Hf |].
    cbn [with_ui ui pending].
    destruct (effect_frame (setProvider pid s)) as (_ & _ & H1 & H2 & _).
    rewrite H1, H2. exact Hf.
  - (* image picked *)
    cbn [handle with_ui ui pending]. destruct file; exact Hf.
  - (* generate *)
    apply negb_true_iff in En.
    destruct Hf as [[-> _] | (cap & _ & Hgen & _)]; [| congruence].
    cbn [handle ui pending]. unfold handleGenerate_submit.
    destruct (truthy (trim (prompt s))); cbn [negb ui pending app].
    + right. eexists. repeat split.
    + left. split; [reflexivity | exact En].
  - (* settle *)
    cbn [handle ui pending].
    destruct (nth_error pend i) as [cap|] eqn:E; [| exact Hf].
    destruct Hf as [[-> _] | (cap0 & -> & _)].
    + destruct i; discriminate.
    + apply nth_error_singleton in E. destruct E as [-> ->].
      left. split; reflexivity.
Qed.

Lemma reachable_flight (events : list Event) (sys : System) :
  run providers events (mount providers) = Some sys -> singleFlight sys.
Proof.
  apply (run_invariant singleFlight).
  - apply handle_flight.
  - apply mount_flight.
Qed.

(** *** The count stays positive *)

Lemma effect_count (s : State) :
  Forall declaresUsableCount providers ->
  1 <= numberOfVideos s ->
  1 <= numberOfVideos (reconciliationEffect providers s).
Proof.
  intros Hall Hn. unfold reconciliationEffect.
  destruct (selectedProvider providers s) as [P|] eqn:E; [| exact Hn].
  rewrite ReconcilerFacts.reconcile_numberOfVideos.
  apply selectedProvider_In in E. destruct E as [Hin _].
  rewrite Forall_forall in Hall. specialize (Hall P Hin).
  destruct (supportsMultipleVideos (capabilities P)) eqn:Hm.
  - apply (ReconcilerFacts.count_clamped P _ Hm), Hall, Hm.
  - rewrite (ReconcilerFacts.count_single P _ Hm). lia.
Qed.

Lemma handle_count (sys : System) (e : Event) :
  Forall declaresUsableCount providers ->
  1 <= numberOfVideos (ui sys) ->
  enabled providers sys e = true ->
  1 <= numberOfVideos (ui (handle providers e sys)).
Proof.
  destruct sys as [s pend]. cbn [ui]. intros Hall Hn En.
  destruct e; try (cbn [handle with_ui ui pending]; exact Hn).
  - cbn [handle ui pending].
    destruct (str_eqb pid (provider s)); [exact Hn |].
    cbn [with_ui ui]. apply effect_count; [exact Hall | exact Hn].
  - cbn [handle with_ui ui pending onNumberOfVideosChange numberOfVideos
         setNumberOfVideos]. lia.
  - cbn [handle with_ui ui pending]. destruct file; exact Hn.
  - rewrite generate_ui. cbn [ui].
    destruct (OutcomeFacts.submit_sameForm now s) as (_ & _ & _ & H & _).
    rewrite H. exact Hn.
  - cbn [handle ui pending].
    destruct (nth_error pend i) as [cap|]; [| exact Hn]. cbn [ui].
    destruct (OutcomeFacts.settle_sameForm cap o now s)
      as (_ & _ & _ & H & _).
    rewrite H. exact Hn.
Qed.

Lemma reachable_count (events : list Event) (sys : System) :
  Forall declaresUsableCount providers ->
  run providers events (mount providers) = Some sys ->
  1 <= numberOfVideos (ui sys).
Proof.
  intros Hall.
  apply (run_invariant (fun sys => 1 <= numberOfVideos (ui sys))).
  - intros sys0 e. apply handle_count, Hall.
  - cbn [ui mount]. apply effect_count; [exact Hall |].
    cbn [numberOfVideos initialState]. lia.
Qed.

(** *** Discrete durations *)

Lemma discrete_same (s u : State) :
  provider u = provider s -> durationSeconds u = durationSeconds s ->
  discreteDuration providers s -> discreteDuration providers u.
Proof.
  unfold discreteDuration. intros Hp Hd H P.
  rewrite (selectedProvider_ext u s Hp), Hd. apply H.
Qed.

Lemma effect_discrete (s : State) :
  Forall durationsWithinMax providers ->
  discreteDuration providers (reconciliationEffect providers s).
Proof.
  intros Hall P. destruct (effect_frame s) as (Hp & _).
  rewrite (selectedProvider_ext _ s Hp). intros E Hne.
  unfold reconciliationEffect. rewrite E.
  rewrite ReconcilerFacts.reconcile_durationSeconds.
  apply selectedProvider_In in E. destruct E as [Hin _].
  rewrite Forall_forall in Hall. specialize (Hall P Hin).
  unfold durationsWithinMax in Hall. rewrite Forall_forall in Hall.
  unfold reconcileDurationSeconds.
  destruct (supportedDurations (capabilities P)) as [|d0 l] eqn:El;
    [congruence |].
  destruct (includes_num (d0 :: l) (durationSeconds s)) eqn:Hinc;
    cbn [negb].
  - apply includes_num_In in Hinc. specialize (Hall _ Hinc).
    replace (Z.min (durationSeconds s) (maxDuration P))
      with (durationSeconds s) by lia.
    exact Hinc.
  - left; reflexivity.
Qed.

Lemma handle_discrete (sys : System) (e : Event) :
  Forall durationsWithinMax providers ->
  discreteDuration providers (ui sys) ->
  enabled providers sys e = true ->
  discreteDuration providers (ui (handle providers e sys)).
Proof.
  destruct sys as [s pend]. cbn [ui]. intros Hall Hd En.
  destruct e; cbn [enabled ui pending] in En;
    try (cbn [handle with_ui ui pending];
         solve [ apply (discrete_same s); [reflexivity .. | exact Hd] ]).
  - cbn [handle ui pending].
    destruct (str_eqb pid (provider s)); [exact Hd |].
    cbn [with_ui ui]. apply effect_discrete, Hall.
  - (* duration chosen *)
    cbn [handle with_ui ui pending]. intros P.
    change (selectedProvider providers (onDurationSelectChange v s))
      with (selectedProvider providers s).
    intros E _. rewrite E in En. apply includes_num_In in En. exact En.
  - (* duration typed *)
    cbn [handle with_ui ui pending]. intros P.
    change (selectedProvider providers (onDurationInputChange v s))
      with (selectedProvider providers s).
    intros E Hne. rewrite E in En.
    destruct (supportedDurations (capabilities P)); congruence.
  - cbn [handle with_ui ui pending]. destruct file;
      apply (discrete_same s); try reflexivity; exact Hd.
  - rewrite generate_ui. cbn [ui].
    destruct (OutcomeFacts.submit_sameForm now s)
      as (H1 & _ & _ & _ & _ & H6 & _).
    apply (discrete_same s); assumption.
  - cbn [handle ui pending].
    destruct (nth_error pend i) as [cap|]; [| exact Hd]. cbn [ui].
    destruct (OutcomeFacts.settle_sameForm cap o now s)
      as (H1 & _ & _ & _ & _ & H6 & _).
    apply (discrete_same s); assumption.
Qed.

(** *** The properties *)

(** X11: in every state the mounted component reaches over a non-empty
    catalog, a provider of the catalog is selected, the one whose id the
    state holds, and the state holds nothing that provider does not
    support: the negative prompt is empty unless negative prompts are
    supported, there is no reference image unless conditioning images
    are supported, the video count is 1 unless multiple videos are
    supported, and the aspect ratio is one the provider lists, if it
    lists any. *)
Theorem reachable_state_gated (events : list Event) (sys : System) :
  providers <> [] ->
  run providers events (mount providers) = Some sys ->
  exists P,
    selectedProvider providers (ui sys) = Some P
    /\ In P providers /\ id P = provider (ui sys)
    /\ (supportsNegativePrompt (capabilities P) = false ->
        negativePrompt (ui sys) = [])
    /\ (supportsConditioningImage (capabilities P) = false ->
        conditioningImage (ui sys) = None)
    /\ (supportsMultipleVideos (capabilities P) = false ->
        numberOfVideos (ui sys) = 1)
    /\ (supportedAspectRatios P <> [] ->
        In (aspectRatio (ui sys)) (supportedAspectRatios P)).
Proof.
  intros Hne Hrun. pose proof (reachable_gated events sys Hrun) as Hg.
  unfold gated in Hg.
  destruct (selectedProvider providers (ui sys)) as [P|] eqn:E.
  - exists P. split; [reflexivity |].
    destruct (selectedProvider_In _ _ E) as [Hin Hid].
    split; [exact Hin |]. split; [exact Hid | exact Hg].
  - destruct Hg as [Hnil _]. contradiction.
Qed.

(** X12: the payload a reachable state submits never carries what the
    selected provider does not support: no reference image entry, an
    empty negative prompt, a count of 1. *)
Theorem reachable_payload_gated (events : list Event) (sys : System)
    (P : VideoProvider) :
  run providers events (mount providers) = Some sys ->
  selectedProvider providers (ui sys) = Some P ->
  (supportsConditioningImage (capabilities P) = false ->
   ~ In (js "conditioningImage") (payloadKeys (ui sys)))
  /\ (supportsNegativePrompt (capabilities P) = false ->
      In (js "negativePrompt", FVString []) (buildFormData (ui sys)))
  /\ (supportsMultipleVideos (capabilities P) = false ->
      In (js "numberOfVideos", FVString (numberToString 1))
         (buildFormData (ui sys))).
Proof.
  intros Hrun E. pose proof (reachable_gated events sys Hrun) as Hg.
  unfold gated in Hg. rewrite E in Hg.
  destruct Hg as (Hneg & Himg & Hcount & _).
  split; [| split].
  - intros H. specialize (Himg H).
    rewrite OrchestratorFacts.payloadKeys_unfold, Himg.
    destruct (str_eqb (provider (ui sys)) (js "veo-3"));
      vm_compute; intuition discriminate.
  - intros H. rewrite OrchestratorFacts.buildFormData_unfold, <- (Hneg H).
    right; left; reflexivity.
  - intros H. rewrite OrchestratorFacts.buildFormData_unfold, <- (Hcount H).
    right; right; left; reflexivity.
Qed.

(** X13: at any time at most one generation request is in flight;
    [isGenerating] is true exactly while one is, so that Generate is
    enabled exactly when none is; and while one is, the generation
    metadata are those its submission recorded: no other attempt has
    replaced them. *)
Theorem one_request_in_flight (events : list Event) (sys : System) :
  run providers events (mount providers) = Some sys ->
  (List.length (pending sys) <= 1)%nat
  /\ (isGenerating (ui sys) = true <-> pending sys <> [])
  /\ (forall now, enabled providers sys (Generate now) = true
                  <-> pending sys = [])
  /\ (forall cap, In cap (pending sys) ->
                  generationMeta (ui sys) = Some (startedMeta cap)).
Proof.
  intros Hrun. cbn [enabled].
  destruct (reachable_flight events sys Hrun)
    as [[Hp Hg] | (cap & Hp & Hg & Hm)]; rewrite Hp, Hg.
  - cbn [List.length negb]. repeat split; try lia; try congruence.
    intros cap [].
  - cbn [List.length negb]. repeat split; try lia; try congruence.
    intros cap' [<- | []]. exact Hm.
Qed.

(** X14: over a catalog whose providers all have a usable video limit
    ([maxVideos || 1] at least 1 when multiple videos are supported),
    the video count is at least 1 in every reachable state, and the
    estimated total cost is the per-video estimate times that count. *)
Theorem reachable_count_positive (events : list Event) (sys : System) :
  Forall declaresUsableCount providers ->
  run providers events (mount providers) = Some sys ->
  1 <= numberOfVideos (ui sys)
  /\ estimatedTotalCost (selectedProvider providers (ui sys))
       (durationSeconds (ui sys)) (numberOfVideos (ui sys))
     = (estimatedCostPerVideo (selectedProvider providers (ui sys))
          (durationSeconds (ui sys))
        * inject_Z (numberOfVideos (ui sys)))%Q.
Proof.
  intros Hall Hrun. pose proof (reachable_count events sys Hall Hrun) as Hn.
  split; [exact Hn |]. unfold estimatedTotalCost.
  replace (Z.max 1 (numberOfVideos (ui sys))) with (numberOfVideos (ui sys))
    by lia.
  reflexivity.
Qed.

(** X15: over a catalog none of whose providers declares a discrete
    duration above its maximum, whenever the selected provider declares
    discrete durations the duration of a reachable state is one of
    them. *)
Theorem reachable_duration_discrete (events : list Event) (sys : System)
    (P : VideoProvider) :
  Forall durationsWithinMax providers ->
  run providers events (mount providers) = Some sys ->
  selectedProvider providers (ui sys) = Some P ->
  supportedDurations (capabilities P) <> [] ->
  In (durationSeconds (ui sys)) (supportedDurations (capabilities P)).
Proof.
  intros Hall Hrun.
  apply (run_invariant (fun sys => discreteDuration providers (ui sys))
           (fun sys0 e => handle_discrete sys0 e Hall)
           events (mount providers) sys); [| exact Hrun].
  cbn [ui mount]. apply effect_discrete, Hall.
Qed.

End WithCatalog.

Lemma sample_run :
  run (RT := sampleRuntime) sampleCatalog sampleEvents (mount sampleCatalog)
  = Some sampleFinal.
Proof. vm_compute. reflexivity. Qed.

Example sample_final_form :
  provider (ui sampleFinal) = js "plain"
  /\ conditioningImage (ui sampleFinal) = None
  /\ numberOfVideos (ui sampleFinal) = 1
  /\ aspectRatio (ui sampleFinal) = js "16:9"
  /\ isGenerating (ui sampleFinal) = false
  /\ pending sampleFinal = [].
Proof. vm_compute. repeat split. Qed.

(** While generating, the button is disabled. *)
Example generate_twice_disabled :
  run (RT := sampleRuntime) sampleCatalog
    [EditPrompt (js "a cat"); Generate 5000; Generate 5001]
    (mount sampleCatalog) = None.
Proof. vm_compute. reflexivity. Qed.

(** The count input is not there for a provider with a single video. *)
Example count_input_absent :
  run (RT := sampleRuntime) sampleCatalog
    [ChooseProvider (js "plain"); TypeNumberOfVideos 3]
    (mount sampleCatalog) = None.
Proof. vm_compute. reflexivity. Qed.

Lemma reachable_state_gated_witness :
  sampleCatalog <> []
  /\ run (RT := sampleRuntime) sampleCatalog sampleEvents
       (mount sampleCatalog) = Some sampleFinal
  /\ exists P, selectedProvider sampleCatalog (ui sampleFinal) = Some P.
Proof.
  assert (sampleCatalog <> []) as Hne by discriminate.
  assert (run (RT := sampleRuntime) sampleCatalog sampleEvents
            (mount sampleCatalog) = Some sampleFinal) as Hrun
    by (vm_compute; reflexivity).
  split; [exact Hne |]. split; [exact Hrun |].
  destruct (reachable_state_gated (RT := sampleRuntime) sampleCatalog
              sampleEvents sampleFinal Hne Hrun) as (P & HP & _).
  exists P. exact HP.
Defined.

Lemma reachable_payload_gated_witness :
  run (RT := sampleRuntime) sampleCatalog sampleEvents
    (mount sampleCatalog) = Some sampleFinal
  /\ selectedProvider sampleCatalog (ui sampleFinal) = Some plainProvider
  /\ (supportsConditioningImage (capabilities plainProvider) = false ->
      ~ In (js "conditioningImage")
           (payloadKeys (RT := sampleRuntime) (ui sampleFinal))).
Proof.
  assert (run (RT := sampleRuntime) sampleCatalog sampleEvents
            (mount sampleCatalog) = Some sampleFinal) as Hrun
    by (vm_compute; reflexivity).
  assert (selectedProvider sampleCatalog (ui sampleFinal)
          = Some plainProvider) as Hsel by (vm_compute; reflexivity).
  split; [exact Hrun |]. split; [exact Hsel |].
  exact (proj1 (reachable_payload_gated (RT := sampleRuntime) sampleCatalog
                  sampleEvents sampleFinal plainProvider Hrun Hsel)).
Defined.

Lemma one_request_in_flight_witness :
  run (RT := sampleRuntime) sampleCatalog sampleEvents
    (mount sampleCatalog) = Some sampleFinal
  /\ (List.length (pending sampleFinal) <= 1)%nat.
Proof.
  assert (run (RT := sampleRuntime) sampleCatalog sampleEvents
            (mount sampleCatalog) = Some sampleFinal) as Hrun
    by (vm_compute; reflexivity).
  split; [exact Hrun |].
  exact (proj1 (one_request_in_flight (RT := sampleRuntime) sampleCatalog
                  sampleEvents sampleFinal Hrun)).
Defined.

Lemma reachable_count_positive_witness :
  Forall declaresUsableCount sampleCatalog
  /\ run (RT := sampleRuntime) sampleCatalog sampleEvents
       (mount sampleCatalog) = Some sampleFinal
  /\ 1 <= numberOfVideos (ui sampleFinal).
Proof.
  assert (Forall declaresUsableCount sampleCatalog) as Hall.
  { repeat constructor.
    - intros _. cbn. lia.
    - intros H. discriminate H. }
  assert (run (RT := sampleRuntime) sampleCatalog sampleEvents
            (mount sampleCatalog) = Some sampleFinal) as Hrun
    by (vm_compute; reflexivity).
  split; [exact Hall |]. split; [exact Hrun |].
  exact (proj1 (reachable_count_positive (RT := sampleRuntime) sampleCatalog
                  sampleEvents sampleFinal Hall Hrun)).
Defined.

Lemma reachable_duration_discrete_witness :
  Forall durationsWithinMax sampleCatalog
  /\ run (RT := sampleRuntime) sampleCatalog durationEvents
       (mount sampleCatalog) = Some durationFinal
  /\ selectedProvider sampleCatalog (ui durationFinal) = Some sampleProvider
  /\ supportedDurations (capabilities sampleProvider) <> []
  /\ In (durationSeconds (ui durationFinal))
        (supportedDurations (capabilities sampleProvider)).
Proof.
  assert (Forall durationsWithinMax sampleCatalog) as Hall
    by (repeat constructor; cbn; lia).
  assert (run (RT := sampleRuntime) sampleCatalog durationEvents
            (mount sampleCatalog) = Some durationFinal) as Hrun
    by (vm_compute; reflexivity).
  assert (selectedProvider sampleCatalog (ui durationFinal)
          = Some sampleProvider) as Hsel by (vm_compute; reflexivity).
  assert (supportedDurations (capabilities sampleProvider) <> []) as Hne
    by discriminate.
  split; [exact Hall |]. split; [exact Hrun |]. split; [exact Hsel |].
  split; [exact Hne |].
  exact (reachable_duration_discrete (RT := sampleRuntime) sampleCatalog
           durationEvents durationFinal sampleProvider Hall Hrun Hsel Hne).
Defined.

(** The typed duration 7 is not a discrete duration of the first
    provider; coming back to it selects its first one. *)
Example duration_final_value : durationSeconds (ui durationFinal) = 5.
Proof. vm_compute. reflexivity. Qed.

End StudioFacts.
